(** * The SVR training backend ([backend/main.py]) as a shallow embedding

    The two request handlers [upload_file_info] and [train_svr_model] are
    written as pure functions into the response envelope [ApiResponse].
    Python exceptions are values of [exn], threaded through the error monad
    [Exc]; the [try ... except Exception] of each handler is the final
    [match] on that monad.

    Numbers.  The float hyperparameters of a request ([C], [epsilon],
    [test_size]) are binary64 values, Rocq's primitive [float]: the size of
    the test part is the ceiling of a binary64 product, and its rounding is
    what the code computes with.  The cells of the table are idealised: a
    cell is an exact rational ([Q]) or NaN ([None]), infinite cells are left
    out, and sums, means and the square root of the scaler are taken
    exactly ([Q], [R]).  The properties stated below about cells and metrics
    are those that do not depend on how the arithmetic rounds: which cells
    are missing, which value goes where, which partition a routine is
    applied to, and the cases in which a routine answers NaN or zero
    whatever the rounding.

    Collaborators.  File parsing, JSON validation, the pseudo-random
    generator, the SVR solver and the plotting back end are fields of the
    class [Externals].  The parts of pandas and scikit-learn whose behaviour
    decides a property (sizes of the split, mean imputation, standard
    scaling, input validation of the estimator, the three metrics) are
    written out as definitions, each under the name of the library routine
    it stands for. *)

From Stdlib Require Import Floats.
From Stdlib Require Import List String Ascii Bool ZArith QArith Qabs Qround.
From Stdlib Require Import Reals Qreals Lia Psatz DecimalString Permutation.
Import ListNotations.

Set Implicit Arguments.
Set Warnings "-inexact-float".

(** ** Exceptions and the error monad *)

Inductive exn : Type :=
| HTTPException (status_code : Z) (detail : string)
| ValueError (msg : string)
| TypeError (msg : string)
| AttributeError (msg : string)
| KeyError (msg : string)
| ValidationError (msg : string)
| OverflowError (msg : string)
| PyException (msg : string).

Definition Exc (A : Type) : Type := (exn + A)%type.

Definition ret {A : Type} (a : A) : Exc A := inr a.
Definition raise {A : Type} (e : exn) : Exc A := inl e.

Definition bind {A B : Type} (m : Exc A) (k : A -> Exc B) : Exc B :=
  match m with
  | inl e => inl e
  | inr a => k a
  end.

Definition try_except {A : Type} (m : Exc A) (handler : exn -> Exc A) : Exc A :=
  match m with
  | inl e => handler e
  | inr a => inr a
  end.

Declare Scope exc_scope.
Delimit Scope exc_scope with exc.
Notation "x <- m ;; k" := (bind m (fun x => k))
  (at level 61, m at next level, right associativity) : exc_scope.

(** ** Strings, as the handlers use them *)

Open Scope string_scope.

(** [s.split(sep)] for a one-character separator. *)
Fixpoint split (sep : ascii) (s : string) : list string :=
  match s with
  | EmptyString => [EmptyString]
  | String c s' =>
      if Ascii.eqb c sep then EmptyString :: split sep s'
      else match split sep s' with
           | h :: t => String c h :: t
           | [] => [String c EmptyString]
           end
  end.

(** ASCII lower-casing of one byte: [A-Z] go to [a-z], every other byte is
    kept.  No character outside ASCII lower-cases to a letter of
    ["csv"], ["xlsx"] or ["xls"], so on the allow-list test this agrees with
    [str.lower]. *)
Definition lower_ascii (c : ascii) : ascii :=
  let n := nat_of_ascii c in
  if (65 <=? n)%nat && (n <=? 90)%nat then ascii_of_nat (n + 32) else c.

Fixpoint lower (s : string) : string :=
  match s with
  | EmptyString => EmptyString
  | String c s' => String (lower_ascii c) (lower s')
  end.

(** [s.endswith(suffix)]. *)
Fixpoint endswith (s suffix : string) : bool :=
  String.eqb s suffix ||
  match s with
  | EmptyString => false
  | String _ s' => endswith s' suffix
  end.

Definition str_in (s : string) (l : list string) : bool :=
  existsb (String.eqb s) l.

(** [str(n)] for an integer. *)
Definition str_Z (z : Z) : string := NilZero.string_of_int (Z.to_int z).

(** [sep.join(l)]. *)
Fixpoint join (sep : string) (l : list string) : string :=
  match l with
  | [] => EmptyString
  | [s] => s
  | s :: t => s ++ sep ++ join sep t
  end.

(** ** Data model *)

(** A pandas column: [int64] (never missing), [float64] (NaN is [None]) or
    [object] (text, missing is [None]). *)
Inductive column : Type :=
| IntCol (cells : list Z)
| FloatCol (cells : list (option Q))
| ObjCol (cells : list (option string)).

(** A [DataFrame]: named columns in file order. *)
Definition DataFrame : Type := list (string * column).

Definition columns (df : DataFrame) : list string := map fst df.

Definition column_len (c : column) : nat :=
  match c with
  | IntCol l => List.length l
  | FloatCol l => List.length l
  | ObjCol l => List.length l
  end.

(** [len(df)]. *)
Definition df_len (df : DataFrame) : nat :=
  match df with
  | [] => 0%nat
  | (_, c) :: _ => column_len c
  end.

(** [df[name]], the first column of that name. *)
Fixpoint getitem (df : DataFrame) (name : string) : option column :=
  match df with
  | [] => None
  | (n, c) :: rest => if String.eqb n name then Some c else getitem rest name
  end.

Record UploadFile : Type := {
  filename : option string;
  size : option Z;
  file_content : string
}.

Inductive pyvalue : Type :=
| PyInt (z : Z)
| PyFloat (q : Q)
| PyStr (s : string).

Record FileInfo : Type := {
  fi_filename : string;
  fi_shape : nat * nat;
  fi_columns : list string;
  fi_dtypes : list (string * string);
  fi_missing_values : list (string * nat);
  fi_preview : list (list (string * pyvalue))
}.

Record SVRParameters : Type := {
  C : option float;
  epsilon : option float;
  gamma : option string;
  kernel : option string;
  target_column : string;
  feature_columns : option (list string);
  test_size : option float;
  random_state : option Z
}.

(** A float as a metric carries it: [None] is NaN. *)
Definition pyfloat : Type := option Q.

Record SVRMetrics : Type := {
  train_mse : pyfloat;
  test_mse : pyfloat;
  train_r2 : pyfloat;
  test_r2 : pyfloat;
  train_mae : pyfloat;
  test_mae : pyfloat
}.

Record DataInfo : Type := {
  total_samples : nat;
  training_samples : nat;
  test_samples : nat;
  features : nat;
  feature_names : list string
}.

Record SVRResult : Type := {
  model_parameters : SVRParameters;
  metrics : SVRMetrics;
  data_info : DataInfo;
  plot_actual_vs_predicted : string;
  plot_residuals : string
}.

Inductive payload : Type :=
| FileInfoData (info : FileInfo)
| SVRResultData (result : SVRResult).

Record ApiResponse : Type := {
  success : bool;
  message : string;
  data : option payload;
  error : option string
}.

Definition failure (msg err : string) : ApiResponse :=
  {| success := false; message := msg; data := None; error := Some err |}.

(** ** Tabular Data Validator: the fields of [FileInfo] *)

Definition dtype_str (c : column) : string :=
  match c with
  | IntCol _ => "int64"
  | FloatCol _ => "float64"
  | ObjCol _ => "object"
  end.

Definition is_none {A : Type} (o : option A) : bool :=
  match o with
  | None => true
  | Some _ => false
  end.

(** [df[col].isnull().sum()]. *)
Definition isnull_sum (c : column) : nat :=
  match c with
  | IntCol _ => 0%nat
  | FloatCol l => List.length (filter is_none l)
  | ObjCol l => List.length (filter is_none l)
  end.

(** One cell of the preview: [fillna] renders a missing entry as the empty
    string. *)
Definition preview_cell (c : column) (i : nat) : pyvalue :=
  match c with
  | IntCol l => PyInt (nth i l 0%Z)
  | FloatCol l => match nth i l None with
                  | Some q => PyFloat q
                  | None => PyStr EmptyString
                  end
  | ObjCol l => match nth i l None with
                | Some s => PyStr s
                | None => PyStr EmptyString
                end
  end.

(** The first five rows, as [to_dict('records')] lists them. *)
Definition preview (df : DataFrame) : list (list (string * pyvalue)) :=
  map (fun i => map (fun nc => (fst nc, preview_cell (snd nc) i)) df)
      (seq 0 (Nat.min 5 (df_len df))).

(** The arguments of [FileInfo(...)], lines 159-166.  Column labels are
    strings in this model, so the validation of the fields by pydantic has
    nothing to refuse. *)
Definition file_info (name : string) (df : DataFrame) : FileInfo :=
  {| fi_filename := name;
     fi_shape := (df_len df, List.length (columns df));
     fi_columns := columns df;
     fi_dtypes := map (fun nc => (fst nc, dtype_str (snd nc))) df;
     fi_missing_values := map (fun nc => (fst nc, isnull_sum (snd nc))) df;
     fi_preview := preview df |}.

(** ** Feature/Target Selector *)

(** Lines 203-206: an explicit, non-empty list is taken as it is; otherwise
    every column but the target. *)
Definition select_feature_cols (params : SVRParameters) (df : DataFrame)
  : list string :=
  match feature_columns params with
  | Some (c :: l) => c :: l
  | _ => filter (fun col => negb (String.eqb col (target_column params)))
                (columns df)
  end.

(** Line 209. *)
Definition missing_cols (df : DataFrame) (feature_cols : list string)
  : list string :=
  filter (fun col => negb (str_in col (columns df))) feature_cols.

(** [df[feature_cols]]. *)
Fixpoint getitem_list (df : DataFrame) (names : list string) : DataFrame :=
  match names with
  | [] => []
  | n :: rest =>
      match getitem df n with
      | Some c => (n, c) :: getitem_list df rest
      | None => getitem_list df rest
      end
  end.

(** A numeric frame, every column as floats. *)
Definition Frame : Type := list (string * list (option Q)).

Definition numeric_cells (c : column) : option (list (option Q)) :=
  match c with
  | IntCol l => Some (map (fun z => Some (inject_Z z)) l)
  | FloatCol l => Some l
  | ObjCol _ => None
  end.

(** [.select_dtypes(include=[np.number])]. *)
Fixpoint select_dtypes_number (df : DataFrame) : Frame :=
  match df with
  | [] => []
  | (n, c) :: rest =>
      match numeric_cells c with
      | Some cells => (n, cells) :: select_dtypes_number rest
      | None => select_dtypes_number rest
      end
  end.

(** [X.empty]: no column, or no row. *)
Definition frame_empty (X : Frame) (n_rows : nat) : bool :=
  match X with
  | [] => true
  | _ => (n_rows =? 0)%nat
  end.

(** ** Missing-Value Imputer *)

Fixpoint present {A : Type} (l : list (option A)) : list A :=
  match l with
  | [] => []
  | Some v :: t => v :: present t
  | None :: t => present t
  end.

Definition Qsum (l : list Q) : Q := fold_right Qplus 0%Q l.

Definition Qlen {A : Type} (l : list A) : Q := inject_Z (Z.of_nat (List.length l)).

(** [Series.mean()], which skips missing entries; the mean of no entry is
    NaN.  The quotient is exact here; the float mean is rounded, and it is
    NaN as well on a column that holds both infinities, cells this model
    leaves out. *)
Definition mean (l : list (option Q)) : option Q :=
  match present l with
  | [] => None
  | p => Some (Qsum p / Qlen p)%Q
  end.

(** [Series.fillna(value)]; filling with NaN leaves the entry missing. *)
Definition fillna (l : list (option Q)) (value : option Q) : list (option Q) :=
  map (fun c => match c with
                | Some v => Some v
                | None => value
                end) l.

(** Line 229: [X.fillna(X.mean())], column by column. *)
Definition impute_frame (X : Frame) : Frame :=
  map (fun nc => (fst nc, fillna (snd nc) (mean (snd nc)))) X.

(** Line 230: [y.fillna(y.mean())]; the mean of an [object] column raises.
    (A boolean target, which has a mean, is not among the column types of
    this model.) *)
Definition impute_target (y : column) : Exc (list (option Q)) :=
  match numeric_cells y with
  | Some cells => ret (fillna cells (mean cells))
  | None => raise (TypeError "Could not convert to numeric")
  end.

(** ** Train/Test Partitioner ([sklearn.model_selection.train_test_split]) *)

(** The integer [n_samples] as Python converts it for [float * int]: the
    nearest binary64 value, ties to even. *)
Definition float_of_nat (n : nat) : float :=
  SF2Prim (binary_normalize prec emax (Z.of_nat n) 0 false).

(** The ceiling of [v * 2 ^ e]. *)
Definition ceil_scaled (v e : Z) : Z :=
  match e with
  | Zneg k => (- ((- v) / Z.pow_pos 2 k))%Z
  | _ => (v * 2 ^ e)%Z
  end.

(** [math.ceil(x)] of a binary64 value: an exact integer; NaN and the
    infinities raise. *)
Definition float_ceil (x : float) : Exc Z :=
  match Prim2SF x with
  | S754_zero _ => ret 0%Z
  | S754_finite s m e => ret (ceil_scaled (cond_Zopp s (Zpos m)) e)
  | S754_nan => raise (ValueError "cannot convert float NaN to integer")
  | S754_infinity _ =>
      raise (OverflowError "cannot convert float infinity to integer")
  end.

(** [_validate_shuffle_split] called with a float [test_size] and no
    [train_size]: [n_test = ceil(test_size * n_samples)], the product taken
    in binary64, and [n_train = n_samples - n_test]; [test_size] defaults to
    [0.25].  A NaN [test_size] passes the range test and fails in [ceil]. *)
Definition validate_shuffle_split (n_samples : nat) (test_size : option float)
  : Exc (nat * nat) :=
  let f := match test_size with
           | Some f => f
           | None => 0.25%float
           end in
  if (f <=? 0)%float || (1 <=? f)%float then
    raise (ValueError "test_size should be a float in the (0, 1) range")
  else
    bind (float_ceil (f * float_of_nat n_samples)%float) (fun c =>
    let n_test := Z.to_nat c in
    let n_train := (n_samples - n_test)%nat in
    if (n_train =? 0)%nat then
      raise (ValueError "the resulting train set will be empty")
    else ret (n_train, n_test)).

(** [ShuffleSplit._iter_indices]: the test rows are the first [n_test]
    entries of the permutation, the training rows the next [n_train]. *)
Definition split_indices (perm : list nat) (n_train n_test : nat)
  : list nat * list nat :=
  (firstn n_train (skipn n_test perm), firstn n_test perm).

(** [.iloc[idx]] on one column. *)
Definition take {A : Type} (d : A) (col : list A) (idx : list nat) : list A :=
  map (fun i => nth i col d) idx.

Definition iloc (X : Frame) (idx : list nat) : Frame :=
  map (fun nc => (fst nc, take None (snd nc) idx)) X.

(** ** Feature Scaler ([sklearn.preprocessing.StandardScaler]) *)

Record ColumnScaler : Type := {
  mean_ : Q;
  var_ : Q;
  scale_ : R
}.

Definition Qsq (x : Q) : Q := (x * x)%Q.

(** [fit] on one training column: mean and population variance over the
    entries that are not NaN; a constant column gets scale 1.  A column with
    no entry has NaN statistics ([None]).  The statistics are exact here;
    the library computes them in floating point and takes a column for
    constant when its variance is below a rounding threshold. *)
Definition Qmean (p : list Q) : Q := (Qsum p / Qlen p)%Q.

(** Population variance. *)
Definition Qvar (p : list Q) : Q :=
  (Qsum (map (fun x => Qsq (x - Qmean p)) p) / Qlen p)%Q.

Definition fit_column (train : list (option Q)) : option ColumnScaler :=
  match present train with
  | [] => None
  | p =>
      Some {| mean_ := Qmean p;
              var_ := Qvar p;
              scale_ := if Qeq_bool (Qvar p) 0 then 1%R
                        else sqrt (Q2R (Qvar p)) |}
  end.

Definition transform_cell (s : option ColumnScaler) (x : option Q) : option R :=
  match s, x with
  | Some sc, Some v => Some ((Q2R v - Q2R (mean_ sc)) / scale_ sc)%R
  | _, _ => None
  end.

Definition transform_column (s : option ColumnScaler) (col : list (option Q))
  : list (option R) :=
  map (transform_cell s) col.

(** [scaler.fit(X_train)]. *)
Definition scaler_fit (X_train : Frame) : list (option ColumnScaler) :=
  map (fun nc => fit_column (snd nc)) X_train.

(** [scaler.transform(X)], column [j] with the parameters of column [j]. *)
Fixpoint scaler_transform (s : list (option ColumnScaler)) (X : Frame)
  : list (list (option R)) :=
  match s, X with
  | sc :: s', (_, col) :: X' => transform_column sc col :: scaler_transform s' X'
  | _, _ => []
  end.

(** ** Kernel Regression Engine: what [sklearn.svm.SVR] checks before the
    solver runs *)

(** The [gamma] constraint of the estimator for a value that is not a
    number: one of the two policy names. *)
Definition check_gamma (g : option string) : Exc unit :=
  match g with
  | Some s =>
      if String.eqb s "scale" || String.eqb s "auto" then ret tt
      else raise (ValueError "The 'gamma' parameter of SVR must be a str among {'scale', 'auto'} or a float")
  | None =>
      raise (ValueError "The 'gamma' parameter of SVR must be a str among {'scale', 'auto'} or a float")
  end.

Fixpoint all_present {A : Type} (l : list (option A)) : option (list A) :=
  match l with
  | [] => Some []
  | None :: _ => None
  | Some v :: t => option_map (cons v) (all_present t)
  end.

(** [check_array]: NaN is refused. *)
Definition check_vector {A : Type} (l : list (option A)) : Exc (list A) :=
  match all_present l with
  | Some v => ret v
  | None => raise (ValueError "Input contains NaN")
  end.

Fixpoint check_matrix {A : Type} (m : list (list (option A)))
  : Exc (list (list A)) :=
  match m with
  | [] => ret []
  | col :: rest =>
      bind (check_vector col) (fun c =>
      bind (check_matrix rest) (fun r => ret (c :: r)))
  end.

(** ** Metrics Calculator ([sklearn.metrics]) *)

Fixpoint zip_with {A B D : Type} (f : A -> B -> D) (l : list A) (l' : list B)
  : list D :=
  match l, l' with
  | a :: t, b :: t' => f a b :: zip_with f t t'
  | _, _ => []
  end.

(** The three metrics below take sums and quotients exactly; the library
    works in binary64, where a sum of squares can overflow to infinity or
    underflow to zero. *)

(** [_check_reg_targets]: equal lengths, no NaN, at least one sample. *)
Definition check_reg_targets (y_true : list (option Q)) (y_pred : list Q)
  : Exc (list Q) :=
  if negb (List.length y_true =? List.length y_pred)%nat then
    raise (ValueError "Found input variables with inconsistent numbers of samples")
  else
    bind (check_vector y_true) (fun yt =>
    match yt with
    | [] => raise (ValueError "Found array with 0 sample(s)")
    | _ => ret yt
    end).

Definition squared_errors (y_true y_pred : list Q) : list Q :=
  zip_with (fun a b => Qsq (a - b)) y_true y_pred.

Definition mean_squared_error (y_true : list (option Q)) (y_pred : list Q)
  : Exc pyfloat :=
  bind (check_reg_targets y_true y_pred) (fun yt =>
  ret (Some (Qsum (squared_errors yt y_pred) / Qlen yt)%Q)).

Definition mean_absolute_error (y_true : list (option Q)) (y_pred : list Q)
  : Exc pyfloat :=
  bind (check_reg_targets y_true y_pred) (fun yt =>
  ret (Some (Qsum (zip_with (fun a b => Qabs (a - b)) yt y_pred) / Qlen yt)%Q)).

(** Residual and total sums of squares of one partition. *)
Definition ss_res (y_true y_pred : list Q) : Q :=
  Qsum (squared_errors y_true y_pred).

Definition ss_tot (y_true : list Q) : Q :=
  let mu := (Qsum y_true / Qlen y_true)%Q in
  Qsum (map (fun a => Qsq (a - mu)) y_true).

(** [r2_score] with its default [force_finite=True]: NaN (with a warning)
    below two samples; [1 - SS_res/SS_tot] when both sums are non-zero; [0]
    when only [SS_tot] is zero; [1] when [SS_res] is zero. *)
Definition r2_score (y_true : list (option Q)) (y_pred : list Q) : Exc pyfloat :=
  bind (check_reg_targets y_true y_pred) (fun yt =>
  if (List.length y_pred <? 2)%nat then ret None
  else
    let numerator := ss_res yt y_pred in
    let denominator := ss_tot yt in
    let nonzero_denominator := negb (Qeq_bool denominator 0) in
    let nonzero_numerator := negb (Qeq_bool numerator 0) in
    if nonzero_denominator && nonzero_numerator then
      ret (Some (1 - numerator / denominator)%Q)
    else if nonzero_numerator && negb nonzero_denominator then
      ret (Some 0%Q)
    else ret (Some 1%Q)).

(** Lines 256-263, in the order the keyword arguments are evaluated. *)
Definition compute_metrics (y_train : list (option Q)) (y_train_pred : list Q)
    (y_test : list (option Q)) (y_test_pred : list Q) : Exc SVRMetrics :=
  (a <- mean_squared_error y_train y_train_pred ;;
   b <- mean_squared_error y_test y_test_pred ;;
   c <- r2_score y_train y_train_pred ;;
   d <- r2_score y_test y_test_pred ;;
   e <- mean_absolute_error y_train y_train_pred ;;
   f <- mean_absolute_error y_test y_test_pred ;;
   ret {| train_mse := a; test_mse := b; train_r2 := c; test_r2 := d;
          train_mae := e; test_mae := f |})%exc.

(** ** External collaborators *)

(** A fitted regression model: its prediction for the rows of a scaled
    matrix (given by columns). *)
Definition Model : Type := list (list R) -> Exc (list Q).

Class Externals : Type := {
  (** [str(e)] *)
  str_exn : exn -> string;
  (** [repr(s)] of a string *)
  repr_str : string -> string;
  (** [os.getenv("MAX_FILE_SIZE")] *)
  env_MAX_FILE_SIZE : option string;
  (** [int(s)] *)
  py_int : string -> Exc Z;
  (** [bytes.decode('utf-8')] *)
  decode_utf8 : string -> Exc string;
  (** [pd.read_csv(StringIO(content))] *)
  read_csv : string -> Exc DataFrame;
  (** [pd.read_excel(BytesIO(content))] *)
  read_excel : string -> Exc DataFrame;
  (** [SVRParameters.parse_raw] *)
  parse_raw : string -> Exc SVRParameters;
  (** the permutation of [0 .. n-1] drawn by the generator seeded with the
      first argument *)
  rng_permutation : Z -> nat -> Exc (list nat);
  (** the libsvm solver behind [SVR.fit], on validated input *)
  svr_solver : SVRParameters -> list (list R) -> list Q -> Exc Model;
  (** matplotlib figures *)
  Figure : Type;
  (** lines 269-294 *)
  draw_actual_vs_predicted :
    list (option Q) -> list Q -> list (option Q) -> list Q -> SVRMetrics -> Exc Figure;
  (** lines 298-321 *)
  draw_residuals :
    list (option Q) -> list Q -> list (option Q) -> list Q -> Exc Figure;
  (** [fig.savefig(buffer, format='png', ...)] and [buffer.getvalue()] *)
  savefig_png : Figure -> Exc string;
  (** [base64.b64encode(...).decode('utf-8')] *)
  b64encode : string -> string
}.

(** ** The request handlers *)

Section Handlers.

Context {E : Externals}.

Open Scope exc_scope.

(** [repr] of a list of strings. *)
Definition repr_list (l : list string) : string :=
  "[" ++ join ", " (map repr_str l) ++ "]".

(** [file.filename.<method>] on a file without a name. *)
Definition get_filename (file : UploadFile) : Exc string :=
  match filename file with
  | Some name => ret name
  | None => raise (AttributeError "'NoneType' object has no attribute")
  end.

(** Lines 89-103. *)
Definition read_file (file : UploadFile) : Exc DataFrame :=
  try_except
    (name <- get_filename file ;;
     if endswith name ".csv" then
       content <- decode_utf8 (file_content file) ;;
       read_csv content
     else if endswith name ".xlsx" || endswith name ".xls" then
       read_excel (file_content file)
     else raise (HTTPException 400 "Unsupported file format"))
    (fun e => raise (HTTPException 400 ("Error reading file: " ++ str_exn e))).

(** Lines 105-120. *)
Definition create_plot_base64 (fig : Figure) : Exc string :=
  try_except
    (plot_data <- savefig_png fig ;;
     ret ("data:image/png;base64," ++ b64encode plot_data))
    (fun e => raise (PyException ("Error creating plot: " ++ str_exn e))).

(** Line 137: [int(os.getenv("MAX_FILE_SIZE", 50485760))]. *)
Definition max_file_size : Exc Z :=
  match env_MAX_FILE_SIZE with
  | Some s => py_int s
  | None => ret 50485760%Z
  end.

(** Line 138: [file.size and file.size > max_size]. *)
Definition too_large (file : UploadFile) (max_size : Z) : bool :=
  match size file with
  | Some n => negb (n =? 0)%Z && (max_size <? n)%Z
  | None => false
  end.

Definition allowed_extensions : list string := ["csv"; "xlsx"; "xls"].

(** Line 147. *)
Definition file_extension (name : string) : string :=
  lower (last (split "." name) EmptyString).

(** What the body of [upload_file_info] returns or raises (lines 136-172). *)
Definition upload_file_info_body (file : UploadFile) : Exc ApiResponse :=
  max_size <- max_file_size ;;
  if too_large file max_size then
    ret (failure "File too large"
                 ("File size exceeds " ++ str_Z max_size ++ " bytes"))
  else
    name <- get_filename file ;;
    if negb (str_in (file_extension name) allowed_extensions) then
      ret (failure "Invalid file format"
                   "Only ['csv', 'xlsx', 'xls'] files are allowed")
    else
      df <- read_file file ;;
      ret {| success := true;
             message := "File uploaded successfully";
             data := Some (FileInfoData (file_info name df));
             error := None |}.

(** [POST /api/v1/upload-info] with its [except Exception] (lines 174-179). *)
Definition upload_file_info (file : UploadFile) : ApiResponse :=
  match upload_file_info_body file with
  | inr response => response
  | inl e => failure "Failed to process file" (str_exn e)
  end.

(** [len(X)] of a frame with at least one column. *)
Definition frame_len (X : Frame) : nat :=
  match X with
  | [] => 0%nat
  | (_, col) :: _ => List.length col
  end.

(** [next(ShuffleSplit(...).split(X))]: the row indices of the two parts.
    [seed] is [random_state], or the state of the process-wide generator
    when [random_state] is [None]. *)
Definition shuffle_split (n_samples : nat) (test_size : option float) (seed : Z)
  : Exc (list nat * list nat) :=
  sizes <- validate_shuffle_split n_samples test_size ;;
  perm <- rng_permutation seed n_samples ;;
  ret (split_indices perm (fst sizes) (snd sizes)).

(** Lines 233-235. *)
Definition train_test_split (X : Frame) (y : list (option Q))
    (test_size : option float) (seed : Z)
  : Exc (Frame * Frame * list (option Q) * list (option Q)) :=
  let n_samples := frame_len X in
  if negb (n_samples =? List.length y)%nat then
    raise (ValueError "Found input variables with inconsistent numbers of samples")
  else
    idx <- shuffle_split n_samples test_size seed ;;
    ret (iloc X (fst idx), iloc X (snd idx),
         take None y (fst idx), take None y (snd idx)).

(** [SVR(...).fit(X, y)]: parameter and input validation, then the solver. *)
Definition svr_fit (params : SVRParameters) (X : list (list (option R)))
    (y : list (option Q)) : Exc Model :=
  _ <- check_gamma (gamma params) ;;
  Xf <- check_matrix X ;;
  yf <- check_vector y ;;
  svr_solver params Xf yf.

(** [svr.predict(X)]. *)
Definition svr_predict (model : Model) (X : list (list (option R)))
  : Exc (list Q) :=
  Xf <- check_matrix X ;;
  model Xf.

(** Lines 228-348: from imputation to the assembled result. *)
Definition fit_and_evaluate (entropy : Z) (params : SVRParameters)
    (df : DataFrame) (X0 : Frame) (y0 : column) : Exc SVRResult :=
  let X := impute_frame X0 in
  y <- impute_target y0 ;;
  let seed := match random_state params with
              | Some s => s
              | None => entropy
              end in
  parts <- train_test_split X y (test_size params) seed ;;
  let '(X_train, X_test, y_train, y_test) := parts in
  let scaler := scaler_fit X_train in
  let X_train_scaled := scaler_transform scaler X_train in
  let X_test_scaled := scaler_transform scaler X_test in
  model <- svr_fit params X_train_scaled y_train ;;
  y_train_pred <- svr_predict model X_train_scaled ;;
  y_test_pred <- svr_predict model X_test_scaled ;;
  m <- compute_metrics y_train y_train_pred y_test y_test_pred ;;
  fig1 <- draw_actual_vs_predicted y_train y_train_pred y_test y_test_pred m ;;
  actual_vs_predicted_plot <- create_plot_base64 fig1 ;;
  fig2 <- draw_residuals y_train y_train_pred y_test y_test_pred ;;
  residuals_plot <- create_plot_base64 fig2 ;;
  ret {| model_parameters :=
           {| C := C params; epsilon := epsilon params; gamma := gamma params;
              kernel := kernel params; target_column := target_column params;
              feature_columns := Some (map fst X);
              test_size := test_size params;
              random_state := random_state params |};
         metrics := m;
         data_info :=
           {| total_samples := df_len df;
              training_samples := frame_len X_train;
              test_samples := frame_len X_test;
              features := List.length X;
              feature_names := map fst X |};
         plot_actual_vs_predicted := actual_vs_predicted_plot;
         plot_residuals := residuals_plot |}.

(** What the body of [train_svr_model] returns or raises (lines 188-348). *)
Definition train_svr_model_body (entropy : Z) (file : UploadFile)
    (parameters : string) : Exc ApiResponse :=
  params <- parse_raw parameters ;;
  df <- read_file file ;;
  if negb (str_in (target_column params) (columns df)) then
    ret (failure "Invalid target column"
                 ("Column '" ++ target_column params ++ "' not found in dataset"))
  else
    let feature_cols := select_feature_cols params df in
    match missing_cols df feature_cols with
    | (_ :: _) as missing =>
        ret (failure "Invalid feature columns"
                     ("Columns not found: " ++ repr_list missing))
    | [] =>
        let X := select_dtypes_number (getitem_list df feature_cols) in
        match getitem df (target_column params) with
        | None => raise (KeyError (target_column params))
        | Some y =>
            if frame_empty X (df_len df) then
              ret (failure "No numeric features found"
                           "At least one numeric feature column is required")
            else
              result <- fit_and_evaluate entropy params df X y ;;
              ret {| success := true;
                     message := "SVR model trained successfully";
                     data := Some (SVRResultData result);
                     error := None |}
        end
    end.

(** [POST /api/v1/train-svr] with its [except Exception] (lines 350-355). *)
Definition train_svr_model (entropy : Z) (file : UploadFile)
    (parameters : string) : ApiResponse :=
  match train_svr_model_body entropy file parameters with
  | inr response => response
  | inl e => failure "Failed to train SVR model" (str_exn e)
  end.

End Handlers.

(** ** Measures used to state the properties *)

(** [k] is an integer nearest to [x], whatever the rule for ties. *)
Definition is_round (x : Q) (k : Z) : Prop :=
  (Qabs (x - inject_Z k) <= 1 # 2)%Q.

(** The exact value of a finite binary64 number. *)
Definition float_value (x : float) : option Q :=
  match Prim2SF x with
  | S754_zero _ => Some 0%Q
  | S754_finite s m e =>
      Some (match e with
            | Zneg k => Qmake (cond_Zopp s (Zpos m)) (2 ^ k)%positive
            | _ => inject_Z (cond_Zopp s (Zpos m) * 2 ^ e)
            end)
  | _ => None
  end.

Definition with_size (file : UploadFile) (sz : option Z) : UploadFile :=
  {| filename := filename file; size := sz; file_content := file_content file |}.

(** ** Stand-in collaborators, to run the handlers on concrete requests *)

Definition demo_str_exn (e : exn) : string :=
  match e with
  | HTTPException status detail => str_Z status ++ ": " ++ detail
  | ValueError msg => msg
  | TypeError msg => msg
  | AttributeError msg => msg
  | KeyError msg => msg
  | ValidationError msg => msg
  | OverflowError msg => msg
  | PyException msg => msg
  end.

(** A fitted model that predicts the mean of the training targets. *)
Definition mean_model (y : list Q) : Model :=
  fun X => ret (repeat (Qsum y / Qlen y)%Q
                       (match X with
                        | [] => 0%nat
                        | col :: _ => List.length col
                        end)).

(** Collaborators for one request: the reader yields [df], the parameter
    parser yields [params], the generator draws the identity permutation,
    the solver fits [mean_model], plotting succeeds. *)
Definition demo (df : Exc DataFrame) (params : Exc SVRParameters) : Externals :=
  {| str_exn := demo_str_exn;
     repr_str := fun s => "'" ++ s ++ "'";
     env_MAX_FILE_SIZE := None;
     py_int := fun _ => raise (ValueError "invalid literal for int()");
     decode_utf8 := fun b => ret b;
     read_csv := fun _ => df;
     read_excel := fun _ => df;
     parse_raw := fun _ => params;
     rng_permutation := fun _ n => ret (seq 0 n);
     svr_solver := fun _ _ y => ret (mean_model y);
     Figure := unit;
     draw_actual_vs_predicted := fun _ _ _ _ _ => ret tt;
     draw_residuals := fun _ _ _ _ => ret tt;
     savefig_png := fun _ => ret "PNG";
     b64encode := fun b => b |}.

Definition default_params (target : string) : SVRParameters :=
  {| C := Some 1%float; epsilon := Some 0.1%float; gamma := Some "scale";
     kernel := Some "rbf"; target_column := target; feature_columns := None;
     test_size := Some 0.2%float; random_state := Some 42%Z |}.

Definition with_features (p : SVRParameters) (fc : list string) : SVRParameters :=
  {| C := C p; epsilon := epsilon p; gamma := gamma p; kernel := kernel p;
     target_column := target_column p; feature_columns := Some fc;
     test_size := test_size p; random_state := random_state p |}.

Definition with_gamma (p : SVRParameters) (g : string) : SVRParameters :=
  {| C := C p; epsilon := epsilon p; gamma := Some g; kernel := kernel p;
     target_column := target_column p; feature_columns := feature_columns p;
     test_size := test_size p; random_state := random_state p |}.

Definition with_test_size (p : SVRParameters) (f : float) : SVRParameters :=
  {| C := C p; epsilon := epsilon p; gamma := gamma p; kernel := kernel p;
     target_column := target_column p; feature_columns := feature_columns p;
     test_size := Some f; random_state := random_state p |}.

Definition csv_file (name : string) (sz : Z) : UploadFile :=
  {| filename := Some name; size := Some sz; file_content := EmptyString |}.

(** Five numeric rows, columns [x] and [y]. *)
Definition df_xy : DataFrame :=
  [("x", IntCol [1; 2; 3; 4; 5]%Z);
   ("y", FloatCol [Some 2; Some 4; Some 6; Some 8; Some 10]%Q)].


(** A feature column without any value. *)
Definition df_empty_column : DataFrame :=
  [("a", FloatCol [None; None; None; None; None]);
   ("y", IntCol [1; 2; 3; 4; 5]%Z)].



(** The seed the splitter works with. *)
Definition effective_seed (entropy : Z) (params : SVRParameters) : Z :=
  match random_state params with
  | Some s => s
  | None => entropy
  end.

(** * Properties *)

Unset Implicit Arguments.

(** ** Strings *)

Lemma split_not_nil (sep : ascii) (s : string) : split sep s <> [].
Proof.
  destruct s as [|c s]; simpl; [discriminate|].
  destruct (Ascii.eqb c sep); [discriminate|].
  destruct (split sep s); discriminate.
Qed.

(** A name that ends with [.e], where [e] holds no dot, splits into at least
    two segments, the last of which is [e]. *)
Lemma split_endswith (e name : string) :
  split "." e = [e] ->
  endswith name (String "." e) = true ->
  exists h t, split "." name = h :: t /\ t <> [] /\ last t EmptyString = e.
Proof.
  intros He. induction name as [|c s IH]; simpl; intros H.
  - discriminate.
  - apply orb_true_iff in H. destruct H as [H|H].
    + destruct (Ascii.eqb_spec c "."); [|discriminate].
      apply String.eqb_eq in H. subst s. rewrite He.
      exists EmptyString, [e]. repeat split; discriminate.
    + destruct (IH H) as (h & t & Hs & Ht & Hl). rewrite Hs.
      destruct (Ascii.eqb c ".").
      * exists EmptyString, (h :: t). repeat split; [discriminate|].
        destruct t; [contradiction|exact Hl].
      * exists (String c h), t. repeat split; assumption.
Qed.

Lemma last_segment_endswith (e name : string) :
  split "." e = [e] ->
  endswith name (String "." e) = true ->
  last (split "." name) EmptyString = e.
Proof.
  intros He H. destruct (split_endswith e name He H) as (h & t & Hs & Ht & Hl).
  rewrite Hs. destruct t; [contradiction|exact Hl].
Qed.

(** ** The upload handler: size gate, extension allow-list, reader *)

Section UploadInfo.

Context {E : Externals}.

Lemma read_file_unsupported (file : UploadFile) (name : string) :
  filename file = Some name ->
  endswith name ".csv" = false ->
  endswith name ".xlsx" = false ->
  endswith name ".xls" = false ->
  read_file file =
    inl (HTTPException 400
           ("Error reading file: "
            ++ str_exn (HTTPException 400 "Unsupported file format"))).
Proof.
  intros Hn H1 H2 H3. unfold read_file, get_filename.
  rewrite Hn. simpl. rewrite H1, H2, H3. reflexivity.
Qed.

(** The reader's three suffix tests fail on a name whose last segment is
    not, as it is written, on the allow-list. *)
Lemma suffix_tests_fail (name : string) :
  str_in (last (split "." name) EmptyString) allowed_extensions = false ->
  endswith name ".csv" = false /\
  endswith name ".xlsx" = false /\
  endswith name ".xls" = false.
Proof.
  intros H.
  repeat split;
    match goal with
    | |- endswith _ (String _ ?e) = false =>
        destruct (endswith name (String "." e)) eqn:Hend; [|reflexivity];
        apply (last_segment_endswith e name eq_refl) in Hend;
        rewrite Hend in H; discriminate H
    end.
Qed.

(** A file above the limit is refused by the upload handler before its name
    is looked at. *)
Lemma upload_rejects_too_large (file : UploadFile) (max_size : Z) :
  max_file_size = inr max_size ->
  too_large file max_size = true ->
  upload_file_info file =
    failure "File too large" ("File size exceeds " ++ str_Z max_size ++ " bytes").
Proof.
  intros Hm Ht. unfold upload_file_info, upload_file_info_body.
  rewrite Hm. cbn [bind]. rewrite Ht. reflexivity.
Qed.

(** C10, amended: for every upload that passes the size gate and whose file
    name ends in a segment that is on the allow-list only once lower-cased
    (".CSV", ".Xlsx", ...), the extension check passes, the reader refuses
    the name, and the response is the failure envelope of the handler
    carrying the reader's error. *)
Theorem upload_uppercase_extension_fails_in_reader
    (file : UploadFile) (name : string) (max_size : Z) :
  max_file_size = inr max_size ->
  too_large file max_size = false ->
  filename file = Some name ->
  str_in (lower (last (split "." name) EmptyString)) allowed_extensions = true ->
  str_in (last (split "." name) EmptyString) allowed_extensions = false ->
  str_in (file_extension name) allowed_extensions = true /\
  upload_file_info file =
    failure "Failed to process file"
      (str_exn (HTTPException 400
                  ("Error reading file: "
                   ++ str_exn (HTTPException 400 "Unsupported file format")))).
Proof.
  intros Hm Ht Hn Hlow Hraw. split; [exact Hlow|].
  destruct (suffix_tests_fail name Hraw) as (H1 & H2 & H3).
  unfold upload_file_info, upload_file_info_body.
  rewrite Hm. cbn [bind]. rewrite Ht.
  unfold get_filename at 1. rewrite Hn. cbn [bind ret].
  unfold file_extension. rewrite Hlow. cbn [negb].
  rewrite (read_file_unsupported file name Hn H1 H2 H3). reflexivity.
Qed.

End UploadInfo.

Lemma upload_uppercase_extension_witness :
  str_in (file_extension "data.CSV") allowed_extensions = true /\
  upload_file_info (E := demo (inr df_xy) (inr (default_params "y")))
                   (csv_file "data.CSV" 1000) =
    failure "Failed to process file"
      "400: Error reading file: 400: Unsupported file format".
Proof.
  apply (upload_uppercase_extension_fails_in_reader
           (E := demo (inr df_xy) (inr (default_params "y")))
           (csv_file "data.CSV" 1000) "data.CSV" 50485760);
    reflexivity.
Defined.

(** C10 as stated fails on an upload above the size limit: the name ends in
    ".CSV" and its extension is on the allow-list, yet the response reports
    the size, not an error of the reader. *)
Lemma upload_uppercase_extension_too_large :
  filename (csv_file "data.CSV" 60000000) = Some "data.CSV" /\
  str_in (file_extension "data.CSV") allowed_extensions = true /\
  upload_file_info (E := demo (inr df_xy) (inr (default_params "y")))
                   (csv_file "data.CSV" 60000000) =
    failure "File too large" "File size exceeds 50485760 bytes".
Proof. repeat split. Qed.

(** ** No size gate on the training handler *)

Lemma train_svr_model_size_irrelevant {E : Externals} (entropy : Z)
    (file : UploadFile) (parameters : string) (sz : option Z) :
  train_svr_model entropy (with_size file sz) parameters =
  train_svr_model entropy file parameters.
Proof. reflexivity. Qed.

(** C9 at a 60 MB upload: the upload handler refuses the file, the training
    handler takes the same file through the whole pipeline and answers with
    success; it gives the same answer whatever size the file declares. *)
Theorem train_svr_model_accepts_oversize_file :
  upload_file_info (E := demo (inr df_xy) (inr (default_params "y")))
                   (csv_file "data.csv" 60000000) =
    failure "File too large" "File size exceeds 50485760 bytes" /\
  success (train_svr_model (E := demo (inr df_xy) (inr (default_params "y")))
                           0 (csv_file "data.csv" 60000000) "{}") = true /\
  (forall (E : Externals) entropy file parameters sz,
      train_svr_model entropy (with_size file sz) parameters =
      train_svr_model entropy file parameters).
Proof. repeat split. Qed.

(** ** The error monad *)

Lemma bind_inr {A B : Type} (m : Exc A) (k : A -> Exc B) (b : B) :
  bind m k = inr b -> exists a, m = inr a /\ k a = inr b.
Proof. destruct m as [e|a]; simpl; [discriminate|]. intros H. eauto. Qed.

Lemma bind_inl {A B : Type} (m : Exc A) (k : A -> Exc B) (e : exn) :
  m = inl e -> bind m k = inl e.
Proof. intros ->. reflexivity. Qed.

Lemma bind_ret {A B : Type} (m : Exc A) (k : A -> Exc B) (a : A) :
  m = inr a -> bind m k = k a.
Proof. intros ->. reflexivity. Qed.

Ltac inv_bind H :=
  let a := fresh "a" in
  let Ha := fresh "Ha" in
  apply bind_inr in H; destruct H as (a & Ha & H).

Tactic Notation "inv_bind_as" hyp(H) ident(a) ident(Ha) :=
  apply bind_inr in H; destruct H as (a & Ha & H).

(** ** Column names *)

Lemma str_in_In (s : string) (l : list string) : str_in s l = true <-> In s l.
Proof.
  unfold str_in. rewrite existsb_exists. split.
  - intros (x & Hx & Heq). apply String.eqb_eq in Heq. subst. exact Hx.
  - intros H. exists s. split; [exact H|apply String.eqb_refl].
Qed.

Lemma str_in_not_In (s : string) (l : list string) :
  str_in s l = false <-> ~ In s l.
Proof.
  rewrite <- str_in_In. destruct (str_in s l); split; intros H.
  - discriminate.
  - exfalso. apply H. reflexivity.
  - intros H'. discriminate.
  - reflexivity.
Qed.

Lemma missing_cols_spec (df : DataFrame) (fc : list string) (c : string) :
  In c (missing_cols df fc) <-> In c fc /\ ~ In c (columns df).
Proof.
  unfold missing_cols. rewrite filter_In, negb_true_iff, str_in_not_In.
  reflexivity.
Qed.

(** Without an explicit list, the target is not among the selected names. *)
Lemma default_features_exclude_target (params : SVRParameters) (df : DataFrame) :
  feature_columns params = None \/ feature_columns params = Some [] ->
  ~ In (target_column params) (select_feature_cols params df).
Proof.
  intros H Hin. unfold select_feature_cols in Hin.
  destruct H as [H|H]; rewrite H in Hin;
    apply filter_In in Hin; destruct Hin as [_ Hin];
    rewrite String.eqb_refl in Hin; discriminate.
Qed.

(** ** The training handler *)

Section TrainHandler.

Context {E : Externals}.

Lemma train_body_raises (entropy : Z) (file : UploadFile) (parameters : string)
    (e : exn) :
  train_svr_model_body entropy file parameters = inl e ->
  train_svr_model entropy file parameters =
    failure "Failed to train SVR model" (str_exn e).
Proof. unfold train_svr_model. intros ->. reflexivity. Qed.

Lemma train_body_returns (entropy : Z) (file : UploadFile) (parameters : string)
    (r : ApiResponse) :
  train_svr_model_body entropy file parameters = inr r ->
  train_svr_model entropy file parameters = r.
Proof. unfold train_svr_model. intros ->. reflexivity. Qed.

(** The requests that get past the four validations of the handler. *)
Lemma train_reaches_pipeline (entropy : Z) (file : UploadFile)
    (parameters : string) (params : SVRParameters) (df : DataFrame) (y : column) :
  parse_raw parameters = inr params ->
  read_file file = inr df ->
  str_in (target_column params) (columns df) = true ->
  missing_cols df (select_feature_cols params df) = [] ->
  getitem df (target_column params) = Some y ->
  frame_empty (select_dtypes_number
                 (getitem_list df (select_feature_cols params df)))
              (df_len df) = false ->
  train_svr_model_body entropy file parameters =
    bind (fit_and_evaluate entropy params df
            (select_dtypes_number
               (getitem_list df (select_feature_cols params df))) y)
         (fun result =>
            ret {| success := true;
                   message := "SVR model trained successfully";
                   data := Some (SVRResultData result);
                   error := None |}).
Proof.
  intros Hp Hr Ht Hm Hy He. unfold train_svr_model_body.
  rewrite Hp. cbn [bind]. rewrite Hr. cbn [bind]. rewrite Ht. cbn [negb].
  rewrite Hm, Hy, He. reflexivity.
Qed.

(** Every response of the training handler is one of its five envelopes. *)
Lemma train_response_shape (entropy : Z) (file : UploadFile)
    (parameters : string) :
  let r := train_svr_model entropy file parameters in
  (success r = true /\ error r = None /\
   message r = "SVR model trained successfully" /\
   exists result, data r = Some (SVRResultData result)) \/
  (success r = false /\ data r = None /\
   (exists detail, error r = Some detail) /\
   In (message r) ["Invalid target column"; "Invalid feature columns";
                   "No numeric features found"; "Failed to train SVR model"]).
Proof.
  cbv zeta. unfold train_svr_model, train_svr_model_body.
  destruct (parse_raw parameters) as [e|params]; cbn [bind].
  { right. simpl. eauto 10. }
  destruct (read_file file) as [e|df]; cbn [bind].
  { right. simpl. eauto 10. }
  destruct (negb (str_in (target_column params) (columns df))).
  { right. simpl. eauto 10. }
  destruct (missing_cols df (select_feature_cols params df)).
  2:{ right. simpl. eauto 10. }
  destruct (getitem df (target_column params)) as [y|].
  2:{ right. simpl. eauto 10. }
  destruct (frame_empty _ _).
  { right. simpl. eauto 10. }
  destruct (fit_and_evaluate _ _ _ _ _) as [e|result]; cbn [bind ret].
  { right. simpl. eauto 10. }
  left. simpl. eauto 10.
Qed.

End TrainHandler.

Section TrainClaims.

Context {E : Externals}.

Lemma upload_response_shape (file : UploadFile) :
  let r := upload_file_info file in
  (success r = true /\ error r = None /\
   message r = "File uploaded successfully" /\
   exists info, data r = Some (FileInfoData info)) \/
  (success r = false /\ data r = None /\
   (exists detail, error r = Some detail) /\
   In (message r) ["File too large"; "Invalid file format";
                   "Failed to process file"]).
Proof.
  cbv zeta. unfold upload_file_info, upload_file_info_body.
  destruct max_file_size as [e|max_size]; cbn [bind].
  { right. simpl. eauto 10. }
  destruct (too_large file max_size).
  { right. simpl. eauto 10. }
  destruct (get_filename file) as [e|name]; cbn [bind].
  { right. simpl. eauto 10. }
  destruct (negb (str_in (file_extension name) allowed_extensions)).
  { right. simpl. eauto 10. }
  destruct (read_file file) as [e|df]; cbn [bind ret].
  { right. simpl. eauto 10. }
  left. simpl. eauto 10.
Qed.

Lemma create_plot_base64_wraps (fig : Figure) (e : exn) :
  savefig_png fig = inl e ->
  create_plot_base64 fig =
    inl (PyException ("Error creating plot: " ++ str_exn e)).
Proof. unfold create_plot_base64. intros ->. reflexivity. Qed.

(** C4: whatever a stage of either handler raises, the handler returns
    an envelope with [success = false], its fixed short message, no data
    and [str(e)] as the error detail, and this for an exception of the
    parameter parser, of the reader, of the pipeline, of the size limit and
    of the upload reader alike.  A handler never raises: each of its
    responses is either the success envelope, with data and no error, or an
    envelope with [success = false], no data, an error detail and one of
    its fixed messages. *)
Theorem handlers_catch_every_exception
    (entropy : Z) (file : UploadFile) (parameters : string) :
  (forall e, train_svr_model_body entropy file parameters = inl e ->
     train_svr_model entropy file parameters =
       {| success := false; message := "Failed to train SVR model";
          data := None; error := Some (str_exn e) |}) /\
  (forall e, upload_file_info_body file = inl e ->
     upload_file_info file =
       {| success := false; message := "Failed to process file";
          data := None; error := Some (str_exn e) |}) /\
  (forall e, parse_raw parameters = inl e ->
     train_svr_model entropy file parameters =
       {| success := false; message := "Failed to train SVR model";
          data := None; error := Some (str_exn e) |}) /\
  (forall params e, parse_raw parameters = inr params ->
     read_file file = inl e ->
     train_svr_model entropy file parameters =
       {| success := false; message := "Failed to train SVR model";
          data := None; error := Some (str_exn e) |}) /\
  (forall params df y e,
     parse_raw parameters = inr params ->
     read_file file = inr df ->
     str_in (target_column params) (columns df) = true ->
     missing_cols df (select_feature_cols params df) = [] ->
     getitem df (target_column params) = Some y ->
     frame_empty (select_dtypes_number
                    (getitem_list df (select_feature_cols params df)))
                 (df_len df) = false ->
     fit_and_evaluate entropy params df
       (select_dtypes_number (getitem_list df (select_feature_cols params df)))
       y = inl e ->
     train_svr_model entropy file parameters =
       {| success := false; message := "Failed to train SVR model";
          data := None; error := Some (str_exn e) |}) /\
  (forall e, max_file_size = inl e ->
     upload_file_info file =
       {| success := false; message := "Failed to process file";
          data := None; error := Some (str_exn e) |}) /\
  (forall max_size name e,
     max_file_size = inr max_size ->
     too_large file max_size = false ->
     filename file = Some name ->
     str_in (file_extension name) allowed_extensions = true ->
     read_file file = inl e ->
     upload_file_info file =
       {| success := false; message := "Failed to process file";
          data := None; error := Some (str_exn e) |}) /\
  ((success (train_svr_model entropy file parameters) = true /\
    error (train_svr_model entropy file parameters) = None /\
    message (train_svr_model entropy file parameters) =
      "SVR model trained successfully" /\
    exists result,
      data (train_svr_model entropy file parameters) =
        Some (SVRResultData result)) \/
   (success (train_svr_model entropy file parameters) = false /\
    data (train_svr_model entropy file parameters) = None /\
    (exists detail,
       error (train_svr_model entropy file parameters) = Some detail) /\
    In (message (train_svr_model entropy file parameters))
       ["Invalid target column"; "Invalid feature columns";
        "No numeric features found"; "Failed to train SVR model"])) /\
  ((success (upload_file_info file) = true /\
    error (upload_file_info file) = None /\
    message (upload_file_info file) = "File uploaded successfully" /\
    exists info, data (upload_file_info file) = Some (FileInfoData info)) \/
   (success (upload_file_info file) = false /\
    data (upload_file_info file) = None /\
    (exists detail, error (upload_file_info file) = Some detail) /\
    In (message (upload_file_info file))
       ["File too large"; "Invalid file format"; "Failed to process file"])).
Proof.
  repeat apply conj.
  - apply train_body_raises.
  - unfold upload_file_info. intros e ->. reflexivity.
  - intros e He. apply train_body_raises.
    unfold train_svr_model_body. rewrite He. reflexivity.
  - intros params e Hp Hr. apply train_body_raises.
    unfold train_svr_model_body. rewrite Hp. cbn [bind]. rewrite Hr. reflexivity.
  - intros params df y e Hp Hr Ht Hm Hy He Hf. apply train_body_raises.
    rewrite (train_reaches_pipeline entropy file parameters params df y
               Hp Hr Ht Hm Hy He).
    rewrite Hf. reflexivity.
  - intros e He. unfold upload_file_info, upload_file_info_body.
    rewrite He. reflexivity.
  - intros max_size name e Hm Ht Hn Hx Hr.
    unfold upload_file_info, upload_file_info_body.
    rewrite Hm. cbn [bind]. rewrite Ht.
    unfold get_filename at 1. rewrite Hn. cbn [bind ret].
    rewrite Hx. cbn [negb]. rewrite Hr. reflexivity.
  - exact (train_response_shape entropy file parameters).
  - exact (upload_response_shape file).
Qed.

(** C8, amended: when the parameters parse, the file is read, the target
    column is present and the explicit feature list names a column absent
    from the dataset, the response is the failure envelope
    "Invalid feature columns" whose error is the [repr] of the list of the
    requested names that are not columns, in the order requested: exactly
    the missing names. *)
Theorem train_missing_feature_columns
    (entropy : Z) (file : UploadFile) (parameters : string)
    (params : SVRParameters) (df : DataFrame) (fc : list string) :
  parse_raw parameters = inr params ->
  read_file file = inr df ->
  In (target_column params) (columns df) ->
  feature_columns params = Some fc ->
  (exists c, In c fc /\ ~ In c (columns df)) ->
  train_svr_model entropy file parameters =
    failure "Invalid feature columns"
            ("Columns not found: " ++ repr_list (missing_cols df fc)) /\
  (forall c, In c (missing_cols df fc) <-> In c fc /\ ~ In c (columns df)).
Proof.
  intros Hp Hr Ht Hfc (c & Hc & Hnc).
  split; [|intros; apply missing_cols_spec].
  assert (Hsel : select_feature_cols params df = fc).
  { unfold select_feature_cols. rewrite Hfc. destruct fc; [destruct Hc|reflexivity]. }
  assert (Hmiss : In c (missing_cols df fc)) by (apply missing_cols_spec; auto).
  apply train_body_returns. unfold train_svr_model_body.
  rewrite Hp. cbn [bind]. rewrite Hr. cbn [bind].
  apply str_in_In in Ht. rewrite Ht. cbn [negb]. rewrite Hsel.
  destruct (missing_cols df fc); [destruct Hmiss|reflexivity].
Qed.

Lemma fit_and_evaluate_gamma (entropy : Z) (params : SVRParameters)
    (df : DataFrame) (X0 : Frame) (y0 : column) (result : SVRResult) :
  fit_and_evaluate entropy params df X0 y0 = inr result ->
  gamma params = Some "scale" \/ gamma params = Some "auto".
Proof.
  unfold fit_and_evaluate. intros H. cbv zeta in H.
  inv_bind H. inv_bind H. destruct a0 as [[[X_train X_test] y_train] y_test].
  inv_bind H. clear H. unfold svr_fit in Ha1. inv_bind Ha1. clear Ha1.
  unfold check_gamma in Ha2. destruct (gamma params) as [g|]; [|discriminate].
  destruct (String.eqb_spec g "scale"); [subst; auto|].
  destruct (String.eqb_spec g "auto"); [subst; auto|].
  discriminate.
Qed.

(** C7, amended: [gamma] is a string field, and a request trains
    successfully only when the parsed parameters carry one of the policy
    names "scale" or "auto"; no other value of the field, in particular no
    number written as a string, gets past the estimator. *)
Theorem train_success_gamma_policy
    (entropy : Z) (file : UploadFile) (parameters : string) :
  success (train_svr_model entropy file parameters) = true ->
  exists params,
    parse_raw parameters = inr params /\
    (gamma params = Some "scale" \/ gamma params = Some "auto").
Proof.
  unfold train_svr_model, train_svr_model_body.
  destruct (parse_raw parameters) as [e|params]; cbn [bind];
    [discriminate|].
  destruct (read_file file) as [e|df]; cbn [bind]; [discriminate|].
  destruct (negb (str_in (target_column params) (columns df)));
    [discriminate|].
  destruct (missing_cols df (select_feature_cols params df)); [|discriminate].
  destruct (getitem df (target_column params)) as [y|]; [|discriminate].
  destruct (frame_empty _ _); [discriminate|].
  destruct (fit_and_evaluate _ _ _ _ _) as [e|result] eqn:Hfit;
    cbn [bind ret]; [discriminate|].
  intros _. exists params. split; [reflexivity|].
  exact (fit_and_evaluate_gamma _ _ _ _ _ _ Hfit).
Qed.

End TrainClaims.

Lemma train_missing_feature_columns_witness :
  train_svr_model
    (E := demo (inr df_xy)
               (inr (with_features (default_params "y") ["x"; "nonexistent"])))
    0 (csv_file "data.csv" 1000) "target_column=y feature_columns=x,nonexistent" =
  failure "Invalid feature columns" "Columns not found: ['nonexistent']".
Proof.
  refine (proj1 (train_missing_feature_columns
                   (E := demo (inr df_xy)
                              (inr (with_features (default_params "y")
                                                  ["x"; "nonexistent"])))
                   0 (csv_file "data.csv" 1000)
                   "target_column=y feature_columns=x,nonexistent"
                   (with_features (default_params "y") ["x"; "nonexistent"])
                   df_xy ["x"; "nonexistent"] _ _ _ _ _)).
  - reflexivity.
  - reflexivity.
  - simpl. auto.
  - reflexivity.
  - exists "nonexistent". split; simpl; [auto|].
    intros [H|[H|[]]]; discriminate H.
Defined.

(** C8 as stated fails when the target column is absent as well: the
    request names the feature column "nonexistent", which the dataset does
    not have, and the error of the response names the target only. *)
Lemma train_missing_target_reported_first :
  feature_columns (with_features (default_params "t") ["nonexistent"]) =
    Some ["nonexistent"] /\
  ~ In "nonexistent" (columns df_xy) /\
  train_svr_model
    (E := demo (inr df_xy)
               (inr (with_features (default_params "t") ["nonexistent"])))
    0 (csv_file "data.csv" 1000) "target_column=t feature_columns=nonexistent" =
  failure "Invalid target column" "Column 't' not found in dataset".
Proof.
  repeat split. simpl. intros [H|[H|[]]]; discriminate H.
Qed.

Lemma train_success_gamma_policy_witness :
  exists params,
    @parse_raw (demo (inr df_xy) (inr (default_params "y")))
               "target_column=y" = inr params /\
    (gamma params = Some "scale" \/ gamma params = Some "auto").
Proof.
  apply (train_success_gamma_policy
           (E := demo (inr df_xy) (inr (default_params "y")))
           0 (csv_file "data.csv" 1000) "target_column=y").
  reflexivity.
Defined.

(** C7 as stated fails on a request whose gamma is a number: if the parser
    coerces the number into the string field, the estimator refuses the
    string; if the parser refuses the number, the request fails at parsing.
    Either way the response is the failure envelope. *)
Lemma train_numeric_gamma_fails :
  train_svr_model
    (E := demo (inr df_xy) (inr (with_gamma (default_params "y") "0.1")))
    0 (csv_file "data.csv" 1000) "target_column=y gamma=0.1" =
  failure "Failed to train SVR model"
    "The 'gamma' parameter of SVR must be a str among {'scale', 'auto'} or a float" /\
  train_svr_model
    (E := demo (inr df_xy)
               (inl (ValidationError "gamma: Input should be a valid string")))
    0 (csv_file "data.csv" 1000) "target_column=y gamma=0.1" =
  failure "Failed to train SVR model" "gamma: Input should be a valid string".
Proof. split; reflexivity. Qed.

(** ** The explicit feature list is not checked against the target *)

(** C2 at the request with target "y" and explicit features ["x"; "y"]:
    the list is taken as it is, nothing is reported missing, the target
    column is a column of the feature matrix, and the request trains with
    the target among its recorded feature names. *)
Theorem explicit_features_keep_target :
  select_feature_cols (with_features (default_params "y") ["x"; "y"]) df_xy =
    ["x"; "y"] /\
  missing_cols df_xy ["x"; "y"] = [] /\
  In "y" (map fst (impute_frame
                     (select_dtypes_number (getitem_list df_xy ["x"; "y"])))) /\
  exists result,
    train_svr_model
      (E := demo (inr df_xy)
                 (inr (with_features (default_params "y") ["x"; "y"])))
      0 (csv_file "data.csv" 1000) "target_column=y feature_columns=x,y" =
    {| success := true; message := "SVR model trained successfully";
       data := Some (SVRResultData result); error := None |} /\
    feature_names (data_info result) = ["x"; "y"].
Proof.
  repeat split; [simpl; auto|].
  eexists. split; reflexivity.
Qed.

(** ** The train/test partition *)

(** [float_ceil] is the ceiling of the exact value. *)
Lemma float_ceil_value (x : float) (c : Z) :
  float_ceil x = inr c ->
  exists q, float_value x = Some q /\ c = Qceiling q.
Proof.
  unfold float_ceil, float_value.
  destruct (Prim2SF x) as [s|s| |s m e]; try discriminate.
  - intros H. injection H as <-. exists 0%Q. split; reflexivity.
  - intros H. injection H as <-. eexists. split; [reflexivity|].
    unfold ceil_scaled. destruct e as [|k|k].
    + rewrite Qceiling_Z. reflexivity.
    + rewrite Qceiling_Z. reflexivity.
    + unfold Qceiling, Qfloor, Qopp. cbn [Qnum Qden].
      rewrite Pos2Z.inj_pow, Z.pow_pos_fold. reflexivity.
Qed.

Lemma validate_shuffle_split_ok (n : nat) (f : float) (c : Z) :
  (f <=? 0)%float = false -> (1 <=? f)%float = false ->
  float_ceil (f * float_of_nat n) = inr c ->
  (Z.to_nat c < n)%nat ->
  validate_shuffle_split n (Some f) = inr ((n - Z.to_nat c)%nat, Z.to_nat c).
Proof.
  intros H0 H1 Hc Hn. unfold validate_shuffle_split.
  rewrite H0, H1, Hc. cbn [orb bind].
  destruct (Nat.eqb_spec (n - Z.to_nat c) 0); [lia|reflexivity].
Qed.

(** When the fraction leaves no training row, the split raises. *)
Lemma validate_shuffle_split_empty_train (n : nat) (f : float) (c : Z) :
  (f <=? 0)%float = false -> (1 <=? f)%float = false ->
  float_ceil (f * float_of_nat n) = inr c ->
  (n <= Z.to_nat c)%nat ->
  validate_shuffle_split n (Some f) =
    inl (ValueError "the resulting train set will be empty").
Proof.
  intros H0 H1 Hc Hn. unfold validate_shuffle_split.
  rewrite H0, H1, Hc. cbn [orb bind].
  destruct (Nat.eqb_spec (n - Z.to_nat c) 0); [reflexivity|lia].
Qed.

(** The size of the test part follows the binary64 product, which can lie
    above the exact one: 7 is the ceiling of 100 times 7/100, and 100 rows
    at [test_size = 0.07] give 8 test rows. *)
Lemma validate_shuffle_split_binary64 :
  validate_shuffle_split 100 (Some 0.07%float) = inr (92%nat, 8%nat) /\
  validate_shuffle_split 5 (Some 0.2%float) = inr (4%nat, 1%nat) /\
  validate_shuffle_split 5 None = inr (3%nat, 2%nat) /\
  validate_shuffle_split 5 (Some nan) =
    inl (ValueError "cannot convert float NaN to integer").
Proof. repeat split; vm_compute; reflexivity. Qed.

Lemma split_indices_lengths (perm : list nat) (n_train n_test : nat) :
  List.length perm = (n_train + n_test)%nat ->
  List.length (fst (split_indices perm n_train n_test)) = n_train /\
  List.length (snd (split_indices perm n_train n_test)) = n_test.
Proof.
  intros H. unfold split_indices. cbn [fst snd].
  rewrite !length_firstn, length_skipn. lia.
Qed.

Lemma split_indices_cover (perm : list nat) (n_train n_test : nat) :
  List.length perm = (n_train + n_test)%nat ->
  (snd (split_indices perm n_train n_test)
   ++ fst (split_indices perm n_train n_test))%list = perm.
Proof.
  intros H. unfold split_indices. cbn [fst snd].
  rewrite (firstn_all2 (n := n_train) (skipn n_test perm)).
  - apply firstn_skipn.
  - rewrite length_skipn. lia.
Qed.

Lemma take_length {A : Type} (d : A) (col : list A) (idx : list nat) :
  List.length (take d col idx) = List.length idx.
Proof. unfold take. apply length_map. Qed.

Section Partition.

Context {E : Externals}.

(** With a seed in the request, the state of the process-wide generator
    plays no part. *)
Lemma seeded_request_ignores_entropy (e1 e2 : Z) (params : SVRParameters)
    (df : DataFrame) (X0 : Frame) (y0 : column) (seed : Z) :
  random_state params = Some seed ->
  fit_and_evaluate e1 params df X0 y0 = fit_and_evaluate e2 params df X0 y0.
Proof. unfold fit_and_evaluate. intros ->. reflexivity. Qed.

(** C1, amended: for [n] rows, a test fraction [f] that passes the range
    test of the splitter ([f <= 0] and [1 <= f] both false in binary64) and
    a seed for which the generator draws a permutation of the [n] row
    indices, let [c] be the ceiling of the binary64 product [f * n].  The
    split succeeds whenever [c < n]; then [|Test| = c], which is the ceiling
    of the exact value of that rounded product, [|Train| + |Test| = n], the
    two index lists together are a permutation of all row indices, and
    every dataset of [n] rows is cut along these same two index lists: the
    partition depends on the seed, the fraction and the row count only. *)
Theorem train_test_split_sizes (n : nat) (f : float) (c : Z) (seed : Z)
    (perm : list nat) :
  (f <=? 0)%float = false -> (1 <=? f)%float = false ->
  float_ceil (f * float_of_nat n) = inr c ->
  (Z.to_nat c < n)%nat ->
  rng_permutation seed n = inr perm ->
  Permutation perm (seq 0 n) ->
  (exists p, float_value (f * float_of_nat n) = Some p /\ c = Qceiling p) /\
  exists train test,
    shuffle_split n (Some f) seed = inr (train, test) /\
    List.length test = Z.to_nat c /\
    (List.length train + List.length test = n)%nat /\
    Permutation (test ++ train) (seq 0 n) /\
    (forall (X : Frame) (y : list (option Q)),
        frame_len X = n -> List.length y = n ->
        train_test_split X y (Some f) seed =
          inr (iloc X train, iloc X test, take None y train, take None y test) /\
        (List.length (take None y train) + List.length (take None y test) = n)%nat) /\
    (forall e1 e2 params df X0 y0,
        random_state params = Some seed ->
        fit_and_evaluate e1 params df X0 y0 = fit_and_evaluate e2 params df X0 y0).
Proof.
  intros H0 H1 Hc Hn Hrng Hperm.
  split; [exact (float_ceil_value _ _ Hc)|].
  set (n_test := Z.to_nat c) in *.
  assert (Hlen : List.length perm = ((n - n_test) + n_test)%nat).
  { rewrite (Permutation_length Hperm), length_seq. lia. }
  destruct (split_indices_lengths perm (n - n_test) n_test Hlen) as [Htr Hte].
  assert (Hss : shuffle_split n (Some f) seed =
                inr (split_indices perm (n - n_test) n_test)).
  { unfold shuffle_split.
    rewrite (validate_shuffle_split_ok n f c H0 H1 Hc Hn). fold n_test.
    cbn [bind fst snd]. rewrite Hrng. reflexivity. }
  exists (fst (split_indices perm (n - n_test) n_test)),
         (snd (split_indices perm (n - n_test) n_test)).
  rewrite <- surjective_pairing.
  repeat apply conj.
  - exact Hss.
  - exact Hte.
  - lia.
  - rewrite (split_indices_cover perm (n - n_test) n_test Hlen). exact Hperm.
  - intros X y HX Hy. split.
    + unfold train_test_split. rewrite HX, Hy, Nat.eqb_refl. cbn [negb].
      rewrite Hss. reflexivity.
    + rewrite !take_length. lia.
  - intros e1 e2 params df X0 y0 Hs.
    exact (seeded_request_ignores_entropy e1 e2 params df X0 y0 seed Hs).
Qed.

End Partition.

Lemma train_test_split_sizes_witness :
  exists train test,
    shuffle_split (E := demo (inr df_xy) (inr (default_params "y")))
                  5 (Some 0.2%float) 42 = inr (train, test) /\
    List.length test = 1%nat /\
    (List.length train + List.length test = 5)%nat.
Proof.
  destruct (train_test_split_sizes
              (E := demo (inr df_xy) (inr (default_params "y")))
              5 0.2%float 1 42 (seq 0 5))
    as (_ & train & test & Hs & Hte & Hsum & _).
  - reflexivity.
  - reflexivity.
  - reflexivity.
  - vm_compute. lia.
  - reflexivity.
  - apply Permutation_refl.
  - exists train, test. repeat split; assumption.
Defined.

(** C1 as stated fails at five rows and the fraction 0.25, which binary64
    holds exactly: the product is 5/4 without rounding, the request succeeds
    with two test rows and three training rows, while 1 is the integer
    nearest to 5/4 and 2 is not. *)
Lemma test_size_is_not_rounded :
  (exists result,
     train_svr_model
       (E := demo (inr df_xy)
                  (inr (with_test_size (default_params "y") 0.25%float)))
       0 (csv_file "data.csv" 1000) "target_column=y test_size=0.25" =
     {| success := true; message := "SVR model trained successfully";
        data := Some (SVRResultData result); error := None |} /\
     total_samples (data_info result) = 5%nat /\
     test_samples (data_info result) = 2%nat /\
     training_samples (data_info result) = 3%nat) /\
  (exists q, float_value 0.25%float = Some q /\ (q == 1 # 4)%Q) /\
  (exists p, float_value (0.25 * float_of_nat 5)%float = Some p /\
             (p == 5 # 4)%Q /\ is_round p 1 /\ ~ is_round p 2).
Proof.
  split; [|split].
  - eexists. repeat split; reflexivity.
  - eexists. split; [vm_compute; reflexivity|reflexivity].
  - eexists. split; [vm_compute; reflexivity|]. split; [reflexivity|].
    split.
    + unfold is_round. vm_compute. discriminate.
    + unfold is_round. vm_compute. intros H. apply H. reflexivity.
Qed.

(** ** Imputation *)

Lemma fillna_nth_error (col : list (option Q)) (value : option Q) (i : nat) :
  nth_error (fillna col value) i =
    match nth_error col i with
    | None => None
    | Some (Some v) => Some (Some v)
    | Some None => Some value
    end.
Proof.
  unfold fillna. rewrite nth_error_map.
  destruct (nth_error col i) as [[v|]|]; reflexivity.
Qed.

Lemma present_nil_all_none (col : list (option Q)) :
  present col = [] -> Forall (fun c => c = None) col.
Proof.
  induction col as [|[v|] col IH]; simpl; intros H.
  - constructor.
  - discriminate.
  - constructor; [reflexivity|exact (IH H)].
Qed.

Lemma fillna_none (col : list (option Q)) : fillna col None = col.
Proof.
  unfold fillna. induction col as [|[v|] col IH]; simpl; congruence.
Qed.

Lemma mean_none (col : list (option Q)) : present col = [] -> mean col = None.
Proof. unfold mean. intros ->. reflexivity. Qed.

(** C3, amended: imputation keeps every entry that is there and puts the
    fill value in place of each missing one, whatever the fill value is;
    filling with NaN leaves the column as it was.  The fill value of a
    column is its mean over the non-missing entries ([mean]), for the
    feature columns and for a numeric target alike.  A column without any
    entry has NaN as its mean: it comes back as it was, entirely missing.
    The step raises nothing and keeps the names, the order and the length
    of the columns. *)
Theorem imputation_fills_with_column_mean (col : list (option Q)) :
  (forall value i,
      nth_error (fillna col value) i =
        match nth_error col i with
        | None => None
        | Some (Some v) => Some (Some v)
        | Some None => Some value
        end) /\
  fillna col None = col /\
  List.length (fillna col (mean col)) = List.length col /\
  (present col = [] ->
     mean col = None /\ fillna col (mean col) = col /\
     Forall (fun c => c = None) col) /\
  impute_target (FloatCol col) = inr (fillna col (mean col)) /\
  (forall name, impute_frame [(name, col)] = [(name, fillna col (mean col))]) /\
  (forall X : Frame,
      map fst (impute_frame X) = map fst X /\
      forall name c, In (name, c) X ->
                     In (name, fillna c (mean c)) (impute_frame X)).
Proof.
  repeat apply conj.
  - intros value i. apply fillna_nth_error.
  - apply fillna_none.
  - unfold fillna. apply length_map.
  - intros Hp. rewrite (mean_none col Hp). repeat split.
    + apply fillna_none.
    + exact (present_nil_all_none col Hp).
  - reflexivity.
  - reflexivity.
  - intros X. split.
    + unfold impute_frame. rewrite map_map. reflexivity.
    + intros name c Hin. unfold impute_frame.
      apply (in_map (fun nc => (fst nc, fillna (snd nc) (mean (snd nc)))) X
                    (name, c) Hin).
Qed.

(** C3 as stated fails on a column without any value: imputation returns
    the column as it was, every entry NaN, and raises nothing, for a feature
    column and for the target; the request fails only when the estimator
    refuses the NaN input, under the message of a failed training. *)
Lemma all_missing_column_stays_missing :
  impute_frame [("a", [None; None; None; None; None])] =
    [("a", [None; None; None; None; None])] /\
  impute_target (FloatCol [None; None; None; None; None]) =
    inr [None; None; None; None; None] /\
  train_svr_model (E := demo (inr df_empty_column) (inr (default_params "y")))
                  0 (csv_file "data.csv" 1000) "target_column=y" =
    failure "Failed to train SVR model" "Input contains NaN".
Proof. repeat split. Qed.

(** ** Inversion of the pipeline *)

Lemma digits2_pos_shift52 (m : positive) :
  Zpos (digits2_pos (4503599627370496 * m)) = (Zpos (digits2_pos m) + 52)%Z.
Proof. cbn [Pos.mul digits2_pos]. rewrite !Pos2Z.inj_succ. lia. Qed.

Lemma shr_1_iter52 (m : positive) :
  SpecFloat.iter_pos shr_1 52
    {| shr_m := Zpos (4503599627370496 * m); shr_r := false; shr_s := false |} =
  {| shr_m := Zpos m; shr_r := false; shr_s := false |}.
Proof. reflexivity. Qed.

(** A positive binary64 number times [1.0] is that number: the product
    [m * 2^52] at exponent [e - 52] is shifted back by 52 bits without
    rounding. *)
Lemma SFmul_one (m : positive) (e : Z) :
  SpecFloat.bounded prec emax m e = true ->
  SFmul prec emax (S754_finite false m e)
        (S754_finite false 4503599627370496 (-52)) = S754_finite false m e.
Proof.
  intros Hb. unfold SpecFloat.bounded, canonical_mantissa in Hb.
  apply andb_prop in Hb. destruct Hb as [Hc He].
  apply Z.eqb_eq in Hc.
  unfold SFmul. cbn [xorb].
  rewrite Pos.mul_comm.
  unfold binary_round_aux, shr_fexp.
  cbn [Zdigits2]. rewrite digits2_pos_shift52.
  replace (Zpos (digits2_pos m) + 52 + (e + -52))%Z
    with (Zpos (digits2_pos m) + e)%Z by lia.
  rewrite Hc.
  replace (e - (e + -52))%Z with 52%Z by lia.
  cbn [shr_record_of_loc shr]. rewrite shr_1_iter52.
  cbn [loc_of_shr_record shr_m round_nearest_even Zdigits2].
  replace (e + -52 + 52)%Z with e by lia.
  rewrite Hc, Z.sub_diag. cbn [shr shr_m]. rewrite He. reflexivity.
Qed.

Lemma ceil_scaled_pos (v e : Z) : (0 < v)%Z -> (1 <= ceil_scaled v e)%Z.
Proof.
  intros Hv. unfold ceil_scaled. destruct e as [|k|k].
  - rewrite Z.pow_0_r. lia.
  - assert (Hp : (0 < 2 ^ Zpos k)%Z) by (apply Z.pow_pos_nonneg; lia).
    pose proof (Z.mul_pos_pos v (2 ^ Zpos k) Hv Hp). lia.
  - assert (Hp : (0 < Z.pow_pos 2 k)%Z).
    { rewrite Z.pow_pos_fold. apply Z.pow_pos_nonneg; lia. }
    assert (Hd : (- v / Z.pow_pos 2 k < 0)%Z).
    { apply Z.div_lt_upper_bound; [exact Hp|lia]. }
    lia.
Qed.

(** For a single row the test part takes the row: the product of a positive
    fraction and [1.0] is the fraction, and its ceiling is at least 1. *)
Lemma float_ceil_one_row (f : float) (c : Z) :
  (f <=? 0)%float = false ->
  float_ceil (f * float_of_nat 1) = inr c -> (1 <= c)%Z.
Proof.
  intros H0. change (float_of_nat 1) with 1%float.
  unfold float_ceil. rewrite mul_spec.
  rewrite leb_spec in H0.
  pose proof (Prim2SF_valid f) as Hv.
  change (Prim2SF 0) with (S754_zero false) in H0.
  change (Prim2SF 1) with (S754_finite false 4503599627370496 (-52)).
  destruct (Prim2SF f) as [s|s| |s m e].
  - discriminate H0.
  - discriminate.
  - discriminate.
  - destruct s; [discriminate H0|].
    unfold SF64mul. rewrite (SFmul_one m e Hv).
    intros H. injection H as <-. apply ceil_scaled_pos. reflexivity.
Qed.

Lemma validate_shuffle_split_inv (n : nat) (ts : option float) (a b : nat) :
  validate_shuffle_split n ts = inr (a, b) ->
  (1 <= a)%nat /\ (a + b = n)%nat /\
  exists c,
    float_ceil (match ts with
                | Some f => f
                | None => 0.25%float
                end * float_of_nat n) = inr c /\
    b = Z.to_nat c.
Proof.
  unfold validate_shuffle_split.
  set (f := match ts with Some f => f | None => 0.25%float end).
  destruct (f <=? 0)%float eqn:H0; [discriminate|].
  destruct (1 <=? f)%float eqn:H1; [discriminate|]. cbn [orb].
  destruct (float_ceil (f * float_of_nat n)) as [e|c] eqn:Hc;
    cbn [bind]; [discriminate|].
  destruct (Nat.eqb_spec (n - Z.to_nat c) 0) as [He|He]; [discriminate|].
  intros H. injection H as <- <-.
  split; [lia|]. split; [lia|]. exists c. split; reflexivity.
Qed.

(** A single row cannot be split: the test part takes it. *)
Lemma validate_shuffle_split_one_row (ts : option float) (a b : nat) :
  validate_shuffle_split 1 ts <> inr (a, b).
Proof.
  unfold validate_shuffle_split.
  set (f := match ts with Some f => f | None => 0.25%float end).
  destruct (f <=? 0)%float eqn:H0; [discriminate|].
  destruct (1 <=? f)%float eqn:H1; [discriminate|]. cbn [orb].
  destruct (float_ceil (f * float_of_nat 1)) as [e|c] eqn:Hc;
    cbn [bind]; [discriminate|].
  pose proof (float_ceil_one_row f c H0 Hc) as Hpos.
  destruct (Nat.eqb_spec (1 - Z.to_nat c) 0) as [He|He]; [discriminate|].
  lia.
Qed.

Lemma frame_len_impute (X : Frame) : frame_len (impute_frame X) = frame_len X.
Proof.
  destruct X as [|[n c] X]; [reflexivity|]. simpl.
  unfold fillna. apply length_map.
Qed.



Section PipelineInversion.

Context {E : Externals}.

Lemma train_test_split_inv (X : Frame) (y : list (option Q)) (ts : option float)
    (seed : Z) (X_train X_test : Frame) (y_train y_test : list (option Q)) :
  train_test_split X y ts seed = inr (X_train, X_test, y_train, y_test) ->
  exists n_train n_test perm,
    frame_len X = List.length y /\
    validate_shuffle_split (frame_len X) ts = inr (n_train, n_test) /\
    rng_permutation seed (frame_len X) = inr perm /\
    X_train = iloc X (fst (split_indices perm n_train n_test)) /\
    X_test = iloc X (snd (split_indices perm n_train n_test)) /\
    y_train = take None y (fst (split_indices perm n_train n_test)) /\
    y_test = take None y (snd (split_indices perm n_train n_test)).
Proof.
  unfold train_test_split.
  destruct (Nat.eqb_spec (frame_len X) (List.length y)) as [Hl|Hl];
    cbn [negb]; [|discriminate].
  intros H. apply bind_inr in H. destruct H as (idx & Hidx & H).
  injection H as <- <- <- <-.
  unfold shuffle_split in Hidx.
  apply bind_inr in Hidx. destruct Hidx as ([n_train n_test] & Hv & Hidx).
  apply bind_inr in Hidx. destruct Hidx as (perm & Hp & Hidx).
  injection Hidx as <-. cbn [fst snd].
  exists n_train, n_test, perm. repeat split; assumption.
Qed.

(** What a returned result was assembled from. *)
Lemma fit_and_evaluate_inv (entropy : Z) (params : SVRParameters)
    (df : DataFrame) (X0 : Frame) (y0 : column) (result : SVRResult) :
  fit_and_evaluate entropy params df X0 y0 = inr result ->
  exists y X_train X_test y_train y_test model p_train p_test m
         fig1 plot1 fig2 plot2,
    impute_target y0 = inr y /\
    train_test_split (impute_frame X0) y (test_size params)
                     (effective_seed entropy params) =
      inr (X_train, X_test, y_train, y_test) /\
    svr_fit params (scaler_transform (scaler_fit X_train) X_train) y_train =
      inr model /\
    svr_predict model (scaler_transform (scaler_fit X_train) X_train) =
      inr p_train /\
    svr_predict model (scaler_transform (scaler_fit X_train) X_test) =
      inr p_test /\
    compute_metrics y_train p_train y_test p_test = inr m /\
    draw_actual_vs_predicted y_train p_train y_test p_test m = inr fig1 /\
    create_plot_base64 fig1 = inr plot1 /\
    draw_residuals y_train p_train y_test p_test = inr fig2 /\
    create_plot_base64 fig2 = inr plot2 /\
    metrics result = m /\
    plot_actual_vs_predicted result = plot1 /\
    plot_residuals result = plot2 /\
    model_parameters result =
      {| C := C params; epsilon := epsilon params; gamma := gamma params;
         kernel := kernel params; target_column := target_column params;
         feature_columns := Some (map fst (impute_frame X0));
         test_size := test_size params;
         random_state := random_state params |} /\
    data_info result =
      {| total_samples := df_len df;
         training_samples := frame_len X_train;
         test_samples := frame_len X_test;
         features := List.length (impute_frame X0);
         feature_names := map fst (impute_frame X0) |}.
Proof.
  unfold fit_and_evaluate, effective_seed. intros H. cbv zeta in H.
  inv_bind_as H y Hy.
  inv_bind_as H parts Hsplit.
  destruct parts as [[[X_train X_test] y_train] y_test].
  inv_bind_as H model Hmodel.
  inv_bind_as H p_train Hp_train.
  inv_bind_as H p_test Hp_test.
  inv_bind_as H m Hm.
  inv_bind_as H fig1 Hfig1.
  inv_bind_as H plot1 Hplot1.
  inv_bind_as H fig2 Hfig2.
  inv_bind_as H plot2 Hplot2.
  injection H as <-.
  exists y, X_train, X_test, y_train, y_test, model, p_train, p_test, m,
         fig1, plot1, fig2, plot2.
  cbn [metrics plot_actual_vs_predicted plot_residuals model_parameters
       data_info].
  repeat split; assumption.
Qed.

End PipelineInversion.

(** ** Metrics *)


Lemma check_vector_inv {A : Type} (l : list (option A)) (v : list A) :
  check_vector l = inr v <-> all_present l = Some v.
Proof.
  unfold check_vector. destruct (all_present l); split; intros H;
    try discriminate; injection H as <-; reflexivity.
Qed.















Section MetricsClaim.

Context {E : Externals}.



End MetricsClaim.



(** ** The feature scaler *)

Lemma scaler_transform_fit (X_train X : Frame) :
  scaler_transform (scaler_fit X_train) X =
    zip_with (fun tr te => transform_column (fit_column (snd tr)) (snd te))
             X_train X.
Proof.
  unfold scaler_fit. revert X.
  induction X_train as [|[n c] X_train IH]; intros [|[n' c'] X]; simpl;
    try reflexivity.
  f_equal. apply IH.
Qed.

Lemma zip_with_diag {A D : Type} (f : A -> A -> D) (l : list A) :
  zip_with f l l = map (fun a => f a a) l.
Proof. induction l as [|a l IH]; simpl; congruence. Qed.




Section ScalerClaim.

Context {E : Externals}.


End ScalerClaim.



(** * Further properties of the handlers *)

(** ** Tables and frames *)

Lemma getitem_In (df : DataFrame) (n : string) (c : column) :
  getitem df n = Some c -> In (n, c) df.
Proof.
  induction df as [|[m d] df IH]; simpl; [discriminate|].
  destruct (String.eqb_spec m n) as [->|Hne].
  - intros H. injection H as ->. left. reflexivity.
  - intros H. right. exact (IH H).
Qed.

Lemma In_getitem (df : DataFrame) (n : string) :
  In n (columns df) -> exists c, getitem df n = Some c.
Proof.
  induction df as [|[m d] df IH]; simpl; [contradiction|].
  destruct (String.eqb_spec m n) as [->|Hne]; [eauto|].
  intros [H|H]; [contradiction|exact (IH H)].
Qed.

Lemma getitem_list_In (df : DataFrame) (names : list string)
    (n : string) (c : column) :
  In (n, c) (getitem_list df names) -> In n names /\ getitem df n = Some c.
Proof.
  induction names as [|m names IH]; simpl; [contradiction|].
  destruct (getitem df m) as [d|] eqn:Hd.
  - intros [H|H].
    + injection H as -> ->. auto.
    + destruct (IH H). auto.
  - intros H. destruct (IH H). auto.
Qed.

Lemma select_dtypes_number_In (df : DataFrame) (n : string)
    (cells : list (option Q)) :
  In (n, cells) (select_dtypes_number df) ->
  exists c, In (n, c) df /\ numeric_cells c = Some cells.
Proof.
  induction df as [|[m d] df IH]; simpl; [contradiction|].
  destruct (numeric_cells d) as [cs|] eqn:Hd.
  - intros [H|H].
    + injection H as -> ->. eauto.
    + destruct (IH H) as (c & Hc & Hn). eauto.
  - intros H. destruct (IH H) as (c & Hc & Hn). eauto.
Qed.


(** A selected feature is a numeric column of the table that was asked
    for. *)
Lemma selected_feature_origin (df : DataFrame) (names : list string)
    (n : string) (cells : list (option Q)) :
  In (n, cells) (select_dtypes_number (getitem_list df names)) ->
  In n names /\
  exists c, getitem df n = Some c /\ In (n, c) df /\
            numeric_cells c = Some cells.
Proof.
  intros H. apply select_dtypes_number_In in H. destruct H as (c & Hc & Hn).
  apply getitem_list_In in Hc. destruct Hc as [Hin Hg].
  split; [exact Hin|]. exists c. repeat split; try assumption.
  exact (getitem_In _ _ _ Hg).
Qed.


Lemma take_seq {A : Type} (d : A) (col : list A) :
  take d col (seq 0 (List.length col)) = col.
Proof.
  unfold take. induction col as [|a col IH]; [reflexivity|].
  cbn [List.length seq map nth]. f_equal.
  rewrite <- seq_shift, map_map. exact IH.
Qed.

Lemma take_app {A : Type} (d : A) (col : list A) (i j : list nat) :
  take d col (i ++ j) = (take d col i ++ take d col j)%list.
Proof. unfold take. apply map_app. Qed.

Lemma take_all_none {A : Type} (col : list (option A)) (idx : list nat) :
  Forall (fun c => c = None) col ->
  Forall (fun c => c = None) (take None col idx).
Proof.
  intros H. unfold take. apply Forall_forall. intros c Hc.
  apply in_map_iff in Hc. destruct Hc as (i & <- & _).
  destruct (nth_in_or_default i col None) as [Hin|Hd]; [|exact Hd].
  rewrite Forall_forall in H. exact (H _ Hin).
Qed.

Lemma all_present_none {A : Type} (l : list (option A)) :
  l <> [] -> Forall (fun c => c = None) l -> all_present l = None.
Proof.
  destruct l as [|c l]; [contradiction|]. intros _ H.
  inversion H as [|? ? Hc _]. subst. reflexivity.
Qed.

Lemma present_nil_all_none_gen {A : Type} (col : list (option A)) :
  present col = [] -> Forall (fun c => c = None) col.
Proof.
  induction col as [|[v|] col IH]; simpl; intros H.
  - constructor.
  - discriminate.
  - constructor; [reflexivity|exact (IH H)].
Qed.

Lemma check_matrix_columns {A : Type} (m : list (list (option A)))
    (r : list (list A)) (c : list (option A)) :
  check_matrix m = inr r -> In c m -> all_present c <> None.
Proof.
  revert r. induction m as [|c' m IH]; intros r H Hin; [destruct Hin|].
  simpl in H. apply bind_inr in H. destruct H as (v & Hv & H).
  apply bind_inr in H. destruct H as (r' & Hr' & _).
  destruct Hin as [->|Hin].
  - apply check_vector_inv in Hv. rewrite Hv. discriminate.
  - exact (IH r' Hr' Hin).
Qed.

(** ** What a successful training request went through *)

Section TrainingSuccess.

Context {E : Externals}.

Lemma train_success_full_inv (entropy : Z) (file : UploadFile)
    (parameters : string) :
  success (train_svr_model entropy file parameters) = true ->
  exists params df y0 result,
    parse_raw parameters = inr params /\
    read_file file = inr df /\
    In (target_column params) (columns df) /\
    missing_cols df (select_feature_cols params df) = [] /\
    getitem df (target_column params) = Some y0 /\
    select_dtypes_number (getitem_list df (select_feature_cols params df))
      <> [] /\
    df_len df <> 0%nat /\
    fit_and_evaluate entropy params df
      (select_dtypes_number (getitem_list df (select_feature_cols params df)))
      y0 = inr result /\
    train_svr_model entropy file parameters =
      {| success := true; message := "SVR model trained successfully";
         data := Some (SVRResultData result); error := None |}.
Proof.
  unfold train_svr_model, train_svr_model_body.
  destruct (parse_raw parameters) as [e|params]; cbn [bind];
    [discriminate|].
  destruct (read_file file) as [e|df]; cbn [bind]; [discriminate|].
  destruct (str_in (target_column params) (columns df)) eqn:Ht;
    cbn [negb]; [|discriminate].
  destruct (missing_cols df (select_feature_cols params df)) eqn:Hm;
    [|discriminate].
  destruct (getitem df (target_column params)) as [y|] eqn:Hy; [|discriminate].
  destruct (frame_empty _ _) eqn:He; [discriminate|].
  destruct (fit_and_evaluate _ _ _ _ _) as [e|result] eqn:Hfit;
    cbn [bind ret]; [discriminate|].
  intros _. exists params, df, y, result.
  apply str_in_In in Ht.
  unfold frame_empty in He.
  destruct (select_dtypes_number
              (getitem_list df (select_feature_cols params df))) eqn:HX;
    [discriminate|].
  apply Nat.eqb_neq in He.
  repeat split; try assumption; try reflexivity. discriminate.
Qed.

(** Fewer than two rows cannot be split. *)
Lemma train_test_split_two_rows (X : Frame) (y : list (option Q))
    (ts : option float) (seed : Z)
    (parts : Frame * Frame * list (option Q) * list (option Q)) :
  train_test_split X y ts seed = inr parts -> (2 <= frame_len X)%nat.
Proof.
  destruct parts as [[[X_train X_test] y_train] y_test]. intros H.
  destruct (train_test_split_inv _ _ _ _ _ _ _ _ H)
    as (a & b & perm & _ & Hv & _).
  destruct (validate_shuffle_split_inv _ _ _ _ Hv) as (Ha & Hab & _).
  destruct (Nat.eq_dec (frame_len X) 1) as [H1|H1]; [|lia].
  rewrite H1 in Hv. destruct (validate_shuffle_split_one_row _ _ _ Hv).
Qed.

(** X11: when the generator draws a permutation of the row indices, a
    split that succeeds neither loses nor repeats a row: the test targets
    followed by the training targets are a rearrangement of the targets, the
    two frames keep the column names, and each column of full length is cut
    into a test part and a training part that together rearrange it. *)
Theorem split_rearranges_rows (X : Frame) (y : list (option Q))
    (ts : option float) (seed : Z) (X_train X_test : Frame)
    (y_train y_test : list (option Q)) :
  (forall perm, rng_permutation seed (List.length y) = inr perm ->
                Permutation perm (seq 0 (List.length y))) ->
  train_test_split X y ts seed = inr (X_train, X_test, y_train, y_test) ->
  Permutation (y_test ++ y_train) y /\
  map fst X_train = map fst X /\
  map fst X_test = map fst X /\
  (forall name col,
      In (name, col) X -> List.length col = List.length y ->
      exists c_train c_test,
        In (name, c_train) X_train /\ In (name, c_test) X_test /\
        Permutation (c_test ++ c_train) col).
Proof.
  intros Hrng H.
  destruct (train_test_split_inv _ _ _ _ _ _ _ _ H)
    as (a & b & perm & Hl & Hv & Hp & -> & -> & -> & ->).
  rewrite Hl in Hp, Hv.
  pose proof (Hrng perm Hp) as Hperm.
  destruct (validate_shuffle_split_inv _ _ _ _ Hv) as (_ & Hab & _).
  assert (Hlen : List.length perm = (a + b)%nat).
  { rewrite (Permutation_length Hperm), length_seq. lia. }
  pose proof (split_indices_cover perm a b Hlen) as Hcover.
  assert (Hcol : forall (col : list (option Q)),
             List.length col = List.length y ->
             Permutation
               (take None col (snd (split_indices perm a b))
                ++ take None col (fst (split_indices perm a b))) col).
  { intros col Hc. rewrite <- take_app, Hcover.
    rewrite <- (take_seq None col) at 2. rewrite Hc.
    unfold take. apply Permutation_map. exact Hperm. }
  split; [apply Hcol; reflexivity|].
  split; [unfold iloc; rewrite map_map; reflexivity|].
  split; [unfold iloc; rewrite map_map; reflexivity|].
  intros name col Hin Hc.
  exists (take None col (fst (split_indices perm a b))),
         (take None col (snd (split_indices perm a b))).
  split; [|split].
  - exact (in_map (fun nc => (fst nc, take None (snd nc) _)) X (name, col) Hin).
  - exact (in_map (fun nc => (fst nc, take None (snd nc) _)) X (name, col) Hin).
  - exact (Hcol col Hc).
Qed.

(** X12: a request trains only when its feature matrix has two rows or
    more: with fewer rows one of the two parts of the split would be empty
    and the splitter raises, so the response is a failure. *)
Theorem training_needs_two_rows (entropy : Z) (file : UploadFile)
    (parameters : string) :
  success (train_svr_model entropy file parameters) = true ->
  exists params df,
    parse_raw parameters = inr params /\
    read_file file = inr df /\
    (2 <= frame_len (select_dtypes_number
                       (getitem_list df (select_feature_cols params df))))%nat.
Proof.
  intros Hs.
  destruct (train_success_full_inv entropy file parameters Hs)
    as (params & df & y0 & result & Hp & Hr & _ & _ & _ & _ & _ & Hfit & _).
  destruct (fit_and_evaluate_inv _ _ _ _ _ _ Hfit)
    as (y & X_train & X_test & y_train & y_test & model & p_train & p_test
        & m & fig1 & plot1 & fig2 & plot2 & _ & Hsplit & _).
  exists params, df. repeat split; try assumption.
  rewrite <- frame_len_impute.
  exact (train_test_split_two_rows _ _ _ _ _ Hsplit).
Qed.


End TrainingSuccess.

Section TrainingSuccessData.

Context {E : Externals}.

Lemma transform_all_none (s : option ColumnScaler) (col : list (option Q)) :
  Forall (fun c => c = None) col ->
  Forall (fun c => c = None) (transform_column s col).
Proof.
  intros H. unfold transform_column. apply Forall_forall. intros z Hz.
  apply in_map_iff in Hz. destruct Hz as (x & <- & Hx).
  rewrite Forall_forall in H. rewrite (H _ Hx).
  destruct s; reflexivity.
Qed.

Lemma scaled_training_column (X_train : Frame) (name : string)
    (col : list (option Q)) :
  In (name, col) X_train ->
  In (transform_column (fit_column col) col)
     (scaler_transform (scaler_fit X_train) X_train).
Proof.
  intros Hin. rewrite scaler_transform_fit, zip_with_diag.
  exact (in_map (fun tr => transform_column (fit_column (snd tr)) (snd tr))
                X_train (name, col) Hin).
Qed.

(** The estimator is reached with a value in every column. *)
Lemma svr_fit_refuses_empty_column (params : SVRParameters) (X_train : Frame)
    (y_train : list (option Q)) (model : Model) (name : string)
    (col : list (option Q)) :
  svr_fit params (scaler_transform (scaler_fit X_train) X_train) y_train =
    inr model ->
  In (name, col) X_train -> col <> [] ->
  ~ Forall (fun c => c = None) col.
Proof.
  unfold svr_fit. intros H Hin Hne Hall.
  apply bind_inr in H. destruct H as (_ & _ & H).
  apply bind_inr in H. destruct H as (Xf & HXf & _).
  apply (check_matrix_columns _ _ _ HXf (scaled_training_column _ _ _ Hin)).
  apply all_present_none.
  - unfold transform_column. destruct col; [contradiction|discriminate].
  - apply transform_all_none. exact Hall.
Qed.

(** X14: when the generator returns as many indices as it is asked for, a
    request trains only if every numeric feature column that was selected
    holds at least one value, and so does the target when it is an integer
    or a float column: a column that is entirely missing is never fitted,
    the request fails instead. *)
Theorem training_needs_values (entropy : Z) (file : UploadFile)
    (parameters : string) :
  (forall seed n perm, rng_permutation seed n = inr perm ->
                       List.length perm = n) ->
  success (train_svr_model entropy file parameters) = true ->
  exists params df y0,
    parse_raw parameters = inr params /\
    read_file file = inr df /\
    getitem df (target_column params) = Some y0 /\
    (forall cells, numeric_cells y0 = Some cells -> present cells <> []) /\
    (forall name col,
        In (name, col)
           (select_dtypes_number
              (getitem_list df (select_feature_cols params df))) ->
        present col <> []).
Proof.
  intros Hrng Hs.
  destruct (train_success_full_inv entropy file parameters Hs)
    as (params & df & y0 & result & Hp & Hr & _ & _ & Hy0 & HX & _ & Hfit & _).
  destruct (fit_and_evaluate_inv _ _ _ _ _ _ Hfit)
    as (y & X_train & X_test & y_train & y_test & model & p_train & p_test
        & m & fig1 & plot1 & fig2 & plot2 & Hy & Hsplit & Hmodel & _).
  destruct (train_test_split_inv _ _ _ _ _ _ _ _ Hsplit)
    as (a & b & perm & Hl & Hv & Hperm & HXt & _ & Hyt & _).
  pose proof (Hrng _ _ _ Hperm) as Hlen.
  destruct (validate_shuffle_split_inv _ _ _ _ Hv) as (Ha & Hab & _).
  destruct (split_indices_lengths perm a b) as [Htr _]; [lia|].
  set (tr := fst (split_indices perm a b)) in *.
  assert (Htrne : forall (c : list (option Q)), take None c tr <> []).
  { intros c Hnil. apply (f_equal (@List.length _)) in Hnil.
    rewrite take_length in Hnil. simpl in Hnil. lia. }
  exists params, df, y0.
  repeat split; try assumption.
  - intros cells Hcells Hnil.
    unfold impute_target in Hy. rewrite Hcells in Hy. injection Hy as <-.
    unfold svr_fit in Hmodel.
    apply bind_inr in Hmodel. destruct Hmodel as (_ & _ & Hmodel).
    apply bind_inr in Hmodel. destruct Hmodel as (Xf & _ & Hmodel).
    apply bind_inr in Hmodel. destruct Hmodel as (yf & Hyf & _).
    apply check_vector_inv in Hyf.
    rewrite Hyt, (mean_none _ Hnil), fillna_none in Hyf.
    rewrite (all_present_none (take None cells tr)) in Hyf;
      [discriminate|apply Htrne|].
    apply take_all_none. exact (present_nil_all_none_gen _ Hnil).
  - intros name col Hin Hnil.
    assert (Hin' : In (name, take None col tr) X_train).
    { rewrite HXt. unfold iloc, impute_frame. rewrite map_map.
      apply in_map_iff. exists (name, col). split; [|exact Hin].
      cbn [fst snd]. rewrite (mean_none _ Hnil), fillna_none. reflexivity. }
    apply (svr_fit_refuses_empty_column _ _ _ _ _ _ Hmodel Hin' (Htrne col)).
    apply take_all_none. exact (present_nil_all_none_gen _ Hnil).
Qed.

Lemma create_plot_base64_inv (fig : Figure) (plot : string) :
  create_plot_base64 fig = inr plot ->
  exists png, savefig_png fig = inr png /\
              plot = "data:image/png;base64," ++ b64encode png.
Proof.
  unfold create_plot_base64.
  destruct (savefig_png fig) as [e|png]; cbn; [discriminate|].
  intros H. injection H as <-. eauto.
Qed.

(** X9: both plots of a successful training response are data URIs of PNG
    images: each is the prefix "data:image/png;base64," followed by the
    base64 text of the bytes the figure was saved to. *)
Theorem training_plots_are_data_uris (entropy : Z) (file : UploadFile)
    (parameters : string) :
  success (train_svr_model entropy file parameters) = true ->
  exists result fig1 fig2 png1 png2,
    data (train_svr_model entropy file parameters) =
      Some (SVRResultData result) /\
    savefig_png fig1 = inr png1 /\
    savefig_png fig2 = inr png2 /\
    plot_actual_vs_predicted result =
      "data:image/png;base64," ++ b64encode png1 /\
    plot_residuals result = "data:image/png;base64," ++ b64encode png2.
Proof.
  intros Hs.
  destruct (train_success_full_inv entropy file parameters Hs)
    as (params & df & y0 & result & _ & _ & _ & _ & _ & _ & _ & Hfit & Hresp).
  destruct (fit_and_evaluate_inv _ _ _ _ _ _ Hfit)
    as (y & X_train & X_test & y_train & y_test & model & p_train & p_test
        & m & fig1 & plot1 & fig2 & plot2 & _ & _ & _ & _ & _ & _ & _
        & Hplot1 & _ & Hplot2 & _ & Hp1 & Hp2 & _).
  destruct (create_plot_base64_inv _ _ Hplot1) as (png1 & Hs1 & ->).
  destruct (create_plot_base64_inv _ _ Hplot2) as (png2 & Hs2 & ->).
  exists result, fig1, fig2, png1, png2. rewrite Hresp. cbn [data].
  repeat split; assumption.
Qed.

Lemma selected_names_subset (df : DataFrame) (names : list string) (n : string) :
  In n (map fst (select_dtypes_number (getitem_list df names))) ->
  In n names /\
  exists c cells, getitem df n = Some c /\ numeric_cells c = Some cells.
Proof.
  intros H. apply in_map_iff in H. destruct H as ([n' cells] & <- & Hin).
  destruct (selected_feature_origin _ _ _ _ Hin) as (Hn & c & Hg & _ & Hc).
  cbn [fst]. eauto.
Qed.

Lemma impute_frame_names (X : Frame) : map fst (impute_frame X) = map fst X.
Proof. unfold impute_frame. rewrite map_map. reflexivity. Qed.

(** X8: a successful training response records the columns that were
    used, not the ones requested: the feature names are the requested
    columns that are numeric, in the order requested; there is at least
    one; the returned parameters carry the same list as [feature_columns]
    and the other parameters as they were parsed.  Without an explicit
    feature list the target is not among the recorded names. *)
Theorem training_records_used_features (entropy : Z) (file : UploadFile)
    (parameters : string) :
  success (train_svr_model entropy file parameters) = true ->
  exists params df result,
    parse_raw parameters = inr params /\
    read_file file = inr df /\
    data (train_svr_model entropy file parameters) =
      Some (SVRResultData result) /\
    feature_names (data_info result) =
      map fst (select_dtypes_number
                 (getitem_list df (select_feature_cols params df))) /\
    features (data_info result) =
      List.length (feature_names (data_info result)) /\
    (1 <= features (data_info result))%nat /\
    (forall n, In n (feature_names (data_info result)) ->
               In n (select_feature_cols params df) /\
               exists c cells,
                 getitem df n = Some c /\ numeric_cells c = Some cells) /\
    feature_columns (model_parameters result) =
      Some (feature_names (data_info result)) /\
    with_features params (feature_names (data_info result)) =
      model_parameters result /\
    (feature_columns params = None \/ feature_columns params = Some [] ->
     ~ In (target_column params) (feature_names (data_info result))).
Proof.
  intros Hs.
  destruct (train_success_full_inv entropy file parameters Hs)
    as (params & df & y0 & result & Hp & Hr & _ & _ & _ & HX & _ & Hfit & Hresp).
  destruct (fit_and_evaluate_inv _ _ _ _ _ _ Hfit)
    as (y & X_train & X_test & y_train & y_test & model & p_train & p_test
        & m & fig1 & plot1 & fig2 & plot2 & _ & _ & _ & _ & _ & _ & _
        & _ & _ & _ & _ & _ & _ & Hparams & Hinfo).
  exists params, df, result. rewrite Hresp, Hinfo, Hparams.
  cbn [data feature_names features feature_columns].
  rewrite impute_frame_names.
  split; [exact Hp|]. split; [exact Hr|].
  split; [reflexivity|]. split; [reflexivity|].
  split; [unfold impute_frame; rewrite !length_map; reflexivity|].
  split.
  { unfold impute_frame. rewrite length_map.
    destruct (select_dtypes_number _); [contradiction|simpl; lia]. }
  split; [intros n Hn; exact (selected_names_subset _ _ _ Hn)|].
  split; [reflexivity|]. split; [reflexivity|].
  intros Hdef Hin.
  apply selected_names_subset in Hin. destruct Hin as [Hin _].
  exact (default_features_exclude_target params df Hdef Hin).
Qed.

End TrainingSuccessData.

(** ** The gates of the upload handler *)

Lemma no_dot_split (name : string) :
  ~ In "."%char (list_ascii_of_string name) -> split "." name = [name].
Proof.
  induction name as [|c s IH]; intros H; [reflexivity|].
  cbn [list_ascii_of_string] in H. cbn [split].
  destruct (Ascii.eqb_spec c ".") as [->|Hc].
  - exfalso. apply H. left. reflexivity.
  - rewrite IH; [reflexivity|]. intros Hin. apply H. right. exact Hin.
Qed.

Lemma no_dot_endswith (e name : string) :
  split "." e = [e] -> split "." name = [name] ->
  endswith name (String "." e) = false.
Proof.
  intros He Hn. destruct (endswith name (String "." e)) eqn:H; [|reflexivity].
  destruct (split_endswith e name He H) as (h & t & Hs & Ht & _).
  rewrite Hn in Hs. injection Hs as _ <-. contradiction.
Qed.

Lemma too_large_spec (file : UploadFile) (max_size : Z) :
  too_large file max_size = true <->
  exists n, size file = Some n /\ n <> 0%Z /\ (max_size < n)%Z.
Proof.
  unfold too_large. destruct (size file) as [n|].
  - rewrite andb_true_iff, negb_true_iff, Z.eqb_neq, Z.ltb_lt. split.
    + intros [H0 H1]. exists n. auto.
    + intros (n' & Hn & H0 & H1). injection Hn as <-. auto.
  - split; [discriminate|]. intros (n & Hn & _). discriminate.
Qed.

Lemma isnull_sum_le (c : column) : (isnull_sum c <= column_len c)%nat.
Proof. destruct c; simpl; [lia| |]; apply filter_length_le. Qed.

Section UploadGates.

Context {E : Externals}.

(** X1: upload-info answers "File too large" exactly when the limit can
    be read and the file declares a size that is not zero and above it (a
    file of unknown or zero size is never refused for its size), and
    "Invalid file format" exactly when the file passes the size gate, has a
    name, and the lower-cased last dot-separated segment of the name is not
    csv, xlsx or xls; in both cases the reader is not reached and the error
    text is the fixed one. *)
Theorem upload_rejections_characterized (file : UploadFile) :
  (message (upload_file_info file) = "File too large" <->
   exists max_size n,
     max_file_size = inr max_size /\ size file = Some n /\
     n <> 0%Z /\ (max_size < n)%Z) /\
  (message (upload_file_info file) = "Invalid file format" <->
   exists max_size name,
     max_file_size = inr max_size /\ too_large file max_size = false /\
     filename file = Some name /\
     str_in (file_extension name) allowed_extensions = false) /\
  (forall max_size,
      max_file_size = inr max_size ->
      message (upload_file_info file) = "File too large" ->
      error (upload_file_info file) =
        Some ("File size exceeds " ++ str_Z max_size ++ " bytes")) /\
  (message (upload_file_info file) = "Invalid file format" ->
   error (upload_file_info file) =
     Some "Only ['csv', 'xlsx', 'xls'] files are allowed").
Proof.
  unfold upload_file_info, upload_file_info_body.
  destruct max_file_size as [e|max_size]; cbn [bind].
  { repeat split; try discriminate.
    - intros (m & n & H & _). discriminate.
    - intros (m & n & H & _). discriminate. }
  destruct (too_large file max_size) eqn:Ht.
  { pose proof (proj1 (too_large_spec file max_size) Ht) as (n & Hn & H0 & H1).
    repeat split; try discriminate.
    - intros _. exists max_size, n. auto.
    - intros (m & name & Hm & Hf & _). injection Hm as <-. congruence.
    - intros m Hm _. injection Hm as <-. reflexivity. }
  assert (Hnot : ~ exists m n, @inr exn Z max_size = inr m /\ size file = Some n
                               /\ n <> 0%Z /\ (m < n)%Z).
  { intros (m & n & Hm & Hrest). injection Hm as <-.
    assert (too_large file max_size = true)
      by (apply too_large_spec; exists n; exact Hrest).
    congruence. }
  unfold get_filename.
  destruct (filename file) as [name|] eqn:Hn; cbn [bind ret].
  2:{ repeat split; try discriminate; try (intros H; exfalso; exact (Hnot H)).
      intros (m & name & _ & _ & H & _). discriminate. }
  destruct (str_in (file_extension name) allowed_extensions) eqn:Hx;
    cbn [negb].
  - destruct (read_file file) as [e|df]; cbn [bind ret];
      (repeat split; try discriminate;
       try (intros H; exfalso; exact (Hnot H));
       intros (m & name' & _ & _ & Hn' & Hx');
       injection Hn' as <-; congruence).
  - repeat split; try discriminate; try (intros H; exfalso; exact (Hnot H)).
    intros _. exists max_size, name. auto.
Qed.

(** X2: the [FileInfo] of a successful upload describes the table that
    was read: the name of the file, its row and column counts, the column
    names in file order, one type and one missing-value count per column
    under the same names, each count being the number of missing cells of
    that column, and a preview of the first rows, five at most, each row
    listing every column. *)
Theorem upload_success_file_info (file : UploadFile) :
  success (upload_file_info file) = true ->
  exists name df info,
    filename file = Some name /\
    read_file file = inr df /\
    str_in (file_extension name) allowed_extensions = true /\
    upload_file_info file =
      {| success := true; message := "File uploaded successfully";
         data := Some (FileInfoData info); error := None |} /\
    fi_filename info = name /\
    fi_columns info = columns df /\
    fi_shape info = (df_len df, List.length (columns df)) /\
    map fst (fi_dtypes info) = columns df /\
    map fst (fi_missing_values info) = columns df /\
    List.length (fi_preview info) = Nat.min 5 (df_len df) /\
    (forall row, In row (fi_preview info) -> map fst row = columns df) /\
    (forall n k, In (n, k) (fi_missing_values info) ->
                 exists c, In (n, c) df /\ k = isnull_sum c /\
                           (k <= column_len c)%nat).
Proof.
  unfold upload_file_info, upload_file_info_body.
  destruct max_file_size as [e|max_size]; cbn [bind]; [discriminate|].
  destruct (too_large file max_size); [discriminate|].
  unfold get_filename.
  destruct (filename file) as [name|]; cbn [bind ret]; [|discriminate].
  destruct (str_in (file_extension name) allowed_extensions) eqn:Hx;
    cbn [negb]; [|discriminate].
  destruct (read_file file) as [e|df]; cbn [bind ret]; [discriminate|].
  intros _. exists name, df, (file_info name df).
  unfold file_info.
  cbn [fi_filename fi_columns fi_shape fi_dtypes fi_missing_values fi_preview].
  do 2 (split; [reflexivity|]). split; [exact Hx|].
  do 4 (split; [reflexivity|]).
  split; [unfold columns; rewrite map_map; reflexivity|].
  split; [unfold columns; rewrite map_map; reflexivity|].
  split; [unfold preview; rewrite length_map, length_seq; reflexivity|].
  split.
  - intros row Hrow. unfold preview in Hrow.
    apply in_map_iff in Hrow. destruct Hrow as (i & <- & _).
    unfold columns. rewrite map_map. reflexivity.
  - intros n k Hin. apply in_map_iff in Hin.
    destruct Hin as ([n' c] & Heq & Hc). injection Heq as <- <-.
    exists c. repeat split; [exact Hc|apply isnull_sum_le].
Qed.

(** X3: [read_file] raises nothing but [HTTPException] with status 400
    and a detail that starts with "Error reading file: "; when it returns a
    table, the name ends in ".csv" and the table is what the CSV reader made
    of the decoded content, or the name ends in ".xlsx" or ".xls" and the
    table is what the Excel reader made of the bytes. *)
Theorem read_file_outcomes (file : UploadFile) :
  match read_file file with
  | inl e =>
      exists detail, e = HTTPException 400 ("Error reading file: " ++ detail)
  | inr df =>
      exists name,
        filename file = Some name /\
        ((endswith name ".csv" = true /\
          exists content, decode_utf8 (file_content file) = inr content /\
                          read_csv content = inr df) \/
         (endswith name ".csv" = false /\
          endswith name ".xlsx" || endswith name ".xls" = true /\
          read_excel (file_content file) = inr df))
  end.
Proof.
  unfold read_file, get_filename.
  destruct (filename file) as [name|]; cbn [bind ret try_except raise];
    [|eauto].
  destruct (endswith name ".csv") eqn:Hcsv.
  - destruct (decode_utf8 (file_content file)) as [e|content] eqn:Hd;
      cbn [bind try_except raise]; [eauto|].
    destruct (read_csv content) as [e|df] eqn:Hr; cbn [try_except raise];
      [eauto|].
    exists name. split; [reflexivity|]. left. eauto.
  - destruct (endswith name ".xlsx" || endswith name ".xls") eqn:Hx.
    + destruct (read_excel (file_content file)) as [e|df] eqn:Hr;
        cbn [try_except raise]; [eauto|].
      exists name. split; [reflexivity|]. right. auto.
    + cbn [try_except raise]. eauto.
Qed.

Lemma read_file_outcomes_aux (file : UploadFile) (df : DataFrame) :
  read_file file = inr df ->
  exists name,
    filename file = Some name /\
    endswith name ".csv" || (endswith name ".xlsx" || endswith name ".xls")
      = true.
Proof.
  unfold read_file, get_filename.
  destruct (filename file) as [name|]; cbn [bind ret try_except raise];
    [|discriminate].
  intros H. exists name. split; [reflexivity|].
  destruct (endswith name ".csv"); [reflexivity|]. cbn [orb].
  destruct (endswith name ".xlsx" || endswith name ".xls"); [reflexivity|].
  discriminate.
Qed.

Lemma readable_name_allowed (name : string) :
  endswith name ".csv" || (endswith name ".xlsx" || endswith name ".xls")
    = true ->
  str_in (file_extension name) allowed_extensions = true.
Proof.
  intros H. unfold file_extension.
  apply orb_true_iff in H. destruct H as [H|H];
    [|apply orb_true_iff in H; destruct H as [H|H]];
    match type of H with
    | endswith _ (String _ ?e) = true =>
        rewrite (last_segment_endswith e name eq_refl H)
    end; reflexivity.
Qed.

(** X4: the extension check of upload-info never stands in the way of a
    file the reader can read: whenever [read_file] returns a table for a
    file, the file has a name whose extension is on the allow-list, and
    upload-info does not answer "Invalid file format". *)
Theorem readable_file_passes_extension_check (file : UploadFile)
    (df : DataFrame) :
  read_file file = inr df ->
  exists name,
    filename file = Some name /\
    str_in (file_extension name) allowed_extensions = true /\
    message (upload_file_info file) <> "Invalid file format".
Proof.
  intros Hr.
  pose proof (read_file_outcomes_aux file df Hr) as (name & Hn & Hend).
  exists name. split; [exact Hn|].
  pose proof (readable_name_allowed name Hend) as Hx.
  split; [exact Hx|].
  unfold upload_file_info, upload_file_info_body.
  destruct max_file_size as [e|max_size]; cbn [bind]; [discriminate|].
  destruct (too_large file max_size); [discriminate|].
  unfold get_filename at 1. rewrite Hn. cbn [bind ret].
  rewrite Hx. cbn [negb]. rewrite Hr. discriminate.
Qed.

(** X5: a file whose name holds no dot is never read, by either handler:
    the extension upload-info tests is then the whole lower-cased name, so
    names such as "csv" or "XLS" pass its check, and the reader refuses
    them as an unsupported format. *)
Theorem dotless_name_is_refused (file : UploadFile) (name : string) :
  filename file = Some name ->
  ~ In "."%char (list_ascii_of_string name) ->
  file_extension name = lower name /\
  read_file file =
    inl (HTTPException 400
           ("Error reading file: "
            ++ str_exn (HTTPException 400 "Unsupported file format"))) /\
  (forall max_size,
      max_file_size = inr max_size ->
      too_large file max_size = false ->
      str_in (lower name) allowed_extensions = true ->
      upload_file_info file =
        failure "Failed to process file"
          (str_exn (HTTPException 400
                      ("Error reading file: "
                       ++ str_exn (HTTPException 400
                                     "Unsupported file format"))))) /\
  (forall entropy parameters params,
      parse_raw parameters = inr params ->
      train_svr_model entropy file parameters =
        failure "Failed to train SVR model"
          (str_exn (HTTPException 400
                      ("Error reading file: "
                       ++ str_exn (HTTPException 400
                                     "Unsupported file format"))))).
Proof.
  intros Hn Hdot.
  pose proof (no_dot_split name Hdot) as Hs.
  assert (Hext : file_extension name = lower name)
    by (unfold file_extension; rewrite Hs; reflexivity).
  assert (Hread : read_file file =
                  inl (HTTPException 400
                         ("Error reading file: "
                          ++ str_exn (HTTPException 400
                                        "Unsupported file format")))).
  { apply (read_file_unsupported file name Hn);
      apply no_dot_endswith; try reflexivity; exact Hs. }
  split; [exact Hext|]. split; [exact Hread|]. split.
  - intros max_size Hm Ht Hx.
    unfold upload_file_info, upload_file_info_body.
    rewrite Hm. cbn [bind]. rewrite Ht.
    unfold get_filename at 1. rewrite Hn. cbn [bind ret].
    rewrite Hext, Hx. cbn [negb]. rewrite Hread. reflexivity.
  - intros entropy parameters params Hp.
    unfold train_svr_model, train_svr_model_body.
    rewrite Hp. cbn [bind]. rewrite Hread. reflexivity.
Qed.

End UploadGates.

(** ** The validations of the training handler *)

Lemma missing_cols_nil (df : DataFrame) (fc : list string) :
  (forall c, In c fc -> In c (columns df)) -> missing_cols df fc = [].
Proof.
  intros H. unfold missing_cols.
  induction fc as [|c fc IH]; [reflexivity|]. cbn [filter].
  rewrite (proj2 (str_in_In c (columns df)) (H c (or_introl eq_refl))).
  cbn [negb]. apply IH. intros c' Hc'. apply H. right. exact Hc'.
Qed.

Lemma missing_cols_default (params : SVRParameters) (df : DataFrame) :
  feature_columns params = None \/ feature_columns params = Some [] ->
  missing_cols df (select_feature_cols params df) = [].
Proof.
  intros H. apply missing_cols_nil. intros c Hc.
  unfold select_feature_cols in Hc.
  destruct H as [H|H]; rewrite H in Hc; apply filter_In in Hc; tauto.
Qed.

Lemma no_numeric_selected (df : DataFrame) (names : list string) :
  (forall n c, In n names -> In (n, c) df -> numeric_cells c = None) ->
  select_dtypes_number (getitem_list df names) = [].
Proof.
  intros H.
  destruct (select_dtypes_number (getitem_list df names)) as [|[n cells] X]
    eqn:HX; [reflexivity|].
  assert (Hin : In (n, cells) (select_dtypes_number (getitem_list df names)))
    by (rewrite HX; left; reflexivity).
  destruct (selected_feature_origin _ _ _ _ Hin) as (Hn & c & _ & Hc & Hnum).
  rewrite (H n c Hn Hc) in Hnum. discriminate.
Qed.

Section TrainValidation.

Context {E : Externals}.

(** X6: the three validation failures of train-svr happen exactly as
    follows, once the parameters are parsed and the file is read: "Invalid
    target column" when the target is not a column of the table, with an
    error that quotes the target; "Invalid feature columns" when the
    target is a column and some selected feature is not; "No numeric
    features found" when both checks pass and the numeric part of the
    selected features has no column or the table has no row. *)
Theorem train_validation_messages (entropy : Z) (file : UploadFile)
    (parameters : string) :
  (message (train_svr_model entropy file parameters) = "Invalid target column"
   <-> exists params df,
         parse_raw parameters = inr params /\ read_file file = inr df /\
         ~ In (target_column params) (columns df)) /\
  (message (train_svr_model entropy file parameters)
     = "Invalid feature columns"
   <-> exists params df,
         parse_raw parameters = inr params /\ read_file file = inr df /\
         In (target_column params) (columns df) /\
         missing_cols df (select_feature_cols params df) <> []) /\
  (message (train_svr_model entropy file parameters)
     = "No numeric features found"
   <-> exists params df,
         parse_raw parameters = inr params /\ read_file file = inr df /\
         In (target_column params) (columns df) /\
         missing_cols df (select_feature_cols params df) = [] /\
         frame_empty
           (select_dtypes_number
              (getitem_list df (select_feature_cols params df)))
           (df_len df) = true) /\
  (forall params df,
      parse_raw parameters = inr params -> read_file file = inr df ->
      ~ In (target_column params) (columns df) ->
      train_svr_model entropy file parameters =
        failure "Invalid target column"
          ("Column '" ++ target_column params ++ "' not found in dataset")).
Proof.
  unfold train_svr_model, train_svr_model_body.
  destruct (parse_raw parameters) as [e|params]; cbn [bind].
  { repeat split; try discriminate;
      intros (p & d & H & _); discriminate. }
  destruct (read_file file) as [e|df]; cbn [bind].
  { repeat split; try discriminate;
      intros (p & d & _ & H & _); discriminate. }
  assert (Hinj : forall (P : SVRParameters -> DataFrame -> Prop),
             (exists p d, @inr exn _ params = inr p /\ @inr exn _ df = inr d
                          /\ P p d) <-> P params df).
  { intros P. split.
    - intros (p & d & Hp & Hd & H). injection Hp as <-. injection Hd as <-.
      exact H.
    - intros H. exists params, df. auto. }
  rewrite (Hinj (fun p d => ~ In (target_column p) (columns d))).
  rewrite (Hinj (fun p d => In (target_column p) (columns d) /\
                            missing_cols d (select_feature_cols p d) <> [])).
  rewrite (Hinj (fun p d => In (target_column p) (columns d) /\
                            missing_cols d (select_feature_cols p d) = [] /\
                            frame_empty
                              (select_dtypes_number
                                 (getitem_list d (select_feature_cols p d)))
                              (df_len d) = true)).
  assert (Hlast : forall r : ApiResponse,
             (~ In (target_column params) (columns df) ->
              r = failure "Invalid target column"
                    ("Column '" ++ target_column params
                     ++ "' not found in dataset")) ->
             forall p d,
               @inr exn _ params = inr p -> @inr exn _ df = inr d ->
               ~ In (target_column p) (columns d) ->
               r = failure "Invalid target column"
                     ("Column '" ++ target_column p
                      ++ "' not found in dataset")).
  { intros r H p d Hp Hd Hn. injection Hp as <-. injection Hd as <-.
    exact (H Hn). }
  destruct (str_in (target_column params) (columns df)) eqn:Ht; cbn [negb].
  2:{ apply str_in_not_In in Ht.
      split; [|split; [|split]]; [| | |apply Hlast; reflexivity];
        cbv [ret failure message];
        intuition (try discriminate; try congruence). }
  apply str_in_In in Ht.
  destruct (missing_cols df (select_feature_cols params df)) as [|c l] eqn:Hm.
  2:{ split; [|split; [|split]];
        [| | |apply Hlast; intros Hn; contradiction];
        cbv [ret failure message];
        intuition (try discriminate; try congruence). }
  destruct (In_getitem df _ Ht) as (y & Hy). rewrite Hy.
  destruct (frame_empty _ _) eqn:He.
  { split; [|split; [|split]];
      [| | |apply Hlast; intros Hn; contradiction];
      cbv [ret failure message];
      intuition (try discriminate; try congruence). }
  destruct (fit_and_evaluate _ _ _ _ _) as [e|result]; cbn [bind ret];
    (split; [|split; [|split]];
     [| | |apply Hlast; intros Hn; contradiction];
     cbv [ret failure message];
     intuition (try discriminate; try congruence)).
Qed.

(** X7: a request without an explicit feature list over a table in which
    no column other than the target is numeric (in particular a table whose
    only column is the target), or over a table without rows, is answered
    with "No numeric features found"; nothing is fitted. *)
Theorem train_without_numeric_features (entropy : Z) (file : UploadFile)
    (parameters : string) (params : SVRParameters) (df : DataFrame) :
  parse_raw parameters = inr params ->
  read_file file = inr df ->
  In (target_column params) (columns df) ->
  feature_columns params = None \/ feature_columns params = Some [] ->
  (forall n c, In (n, c) df -> n <> target_column params ->
               numeric_cells c = None) \/ df_len df = 0%nat ->
  train_svr_model entropy file parameters =
    failure "No numeric features found"
            "At least one numeric feature column is required".
Proof.
  intros Hp Hr Ht Hdef Hcase.
  unfold train_svr_model, train_svr_model_body.
  rewrite Hp. cbn [bind]. rewrite Hr. cbn [bind].
  rewrite (proj2 (str_in_In _ _) Ht). cbn [negb].
  rewrite (missing_cols_default params df Hdef).
  destruct (In_getitem df _ Ht) as (y & Hy). rewrite Hy.
  assert (He : frame_empty
                 (select_dtypes_number
                    (getitem_list df (select_feature_cols params df)))
                 (df_len df) = true).
  { destruct Hcase as [Hnum|Hrows].
    - rewrite no_numeric_selected; [reflexivity|].
      intros n c Hn Hc. apply (Hnum n c Hc).
      intros ->. exact (default_features_exclude_target params df Hdef Hn).
    - rewrite Hrows. unfold frame_empty.
      destruct (select_dtypes_number _); reflexivity. }
  rewrite He. reflexivity.
Qed.

End TrainValidation.

(** ** The properties above on concrete requests *)

Lemma demo_rng_length (df : Exc DataFrame) (params : Exc SVRParameters) :
  forall seed n perm,
    @rng_permutation (demo df params) seed n = inr perm ->
    List.length perm = n.
Proof.
  intros seed n perm H. cbn in H. injection H as <-. apply length_seq.
Defined.

Lemma split_rearranges_rows_witness :
  Permutation ([Some 2%Q] ++ [Some 4; Some 6; Some 8; Some 10]%Q)%list
              [Some 2; Some 4; Some 6; Some 8; Some 10]%Q.
Proof.
  refine (proj1 (split_rearranges_rows
                   (E := demo (inr df_xy) (inr (default_params "y")))
                   [("x", [Some 1; Some 2; Some 3; Some 4; Some 5]%Q)]
                   [Some 2; Some 4; Some 6; Some 8; Some 10]%Q
                   (Some 0.2%float) 42
                   [("x", [Some 2; Some 3; Some 4; Some 5]%Q)]
                   [("x", [Some 1]%Q)]
                   [Some 4; Some 6; Some 8; Some 10]%Q [Some 2]%Q _ _)).
  - intros perm H. cbn in H. injection H as <-. apply Permutation_refl.
  - reflexivity.
Defined.

Lemma training_needs_two_rows_witness :
  exists params df,
    @parse_raw (demo (inr df_xy) (inr (default_params "y")))
               "target_column=y" = inr params /\
    read_file (E := demo (inr df_xy) (inr (default_params "y")))
              (csv_file "data.csv" 1000) = inr df /\
    (2 <= frame_len (select_dtypes_number
                       (getitem_list df (select_feature_cols params df))))%nat.
Proof.
  exact (training_needs_two_rows
           (E := demo (inr df_xy) (inr (default_params "y")))
           0 (csv_file "data.csv" 1000) "target_column=y" eq_refl).
Defined.


Lemma training_needs_values_witness :
  exists params df y0,
    @parse_raw (demo (inr df_xy) (inr (default_params "y")))
               "target_column=y" = inr params /\
    read_file (E := demo (inr df_xy) (inr (default_params "y")))
              (csv_file "data.csv" 1000) = inr df /\
    getitem df (target_column params) = Some y0.
Proof.
  destruct (training_needs_values
              (E := demo (inr df_xy) (inr (default_params "y")))
              0 (csv_file "data.csv" 1000) "target_column=y"
              (demo_rng_length _ _) eq_refl)
    as (params & df & y0 & Hp & Hr & Hy & _).
  exists params, df, y0. repeat split; assumption.
Defined.

Lemma training_plots_are_data_uris_witness :
  exists result png1,
    data (train_svr_model (E := demo (inr df_xy) (inr (default_params "y")))
                          0 (csv_file "data.csv" 1000) "target_column=y") =
      Some (SVRResultData result) /\
    plot_actual_vs_predicted result = "data:image/png;base64," ++ png1.
Proof.
  destruct (training_plots_are_data_uris
              (E := demo (inr df_xy) (inr (default_params "y")))
              0 (csv_file "data.csv" 1000) "target_column=y" eq_refl)
    as (result & fig1 & fig2 & png1 & png2 & Hd & _ & _ & H1 & _).
  exists result, png1. split; [exact Hd|exact H1].
Defined.

Lemma training_records_used_features_witness :
  exists result,
    data (train_svr_model (E := demo (inr df_xy) (inr (default_params "y")))
                          0 (csv_file "data.csv" 1000) "target_column=y") =
      Some (SVRResultData result) /\
    (1 <= features (data_info result))%nat.
Proof.
  destruct (training_records_used_features
              (E := demo (inr df_xy) (inr (default_params "y")))
              0 (csv_file "data.csv" 1000) "target_column=y" eq_refl)
    as (params & df & result & _ & _ & Hd & _ & _ & Hf & _).
  exists result. split; [exact Hd|exact Hf].
Defined.

Lemma upload_success_file_info_witness :
  exists name df info,
    filename (csv_file "data.csv" 1000) = Some name /\
    read_file (E := demo (inr df_xy) (inr (default_params "y")))
              (csv_file "data.csv" 1000) = inr df /\
    fi_shape info = (df_len df, List.length (columns df)).
Proof.
  destruct (upload_success_file_info
              (E := demo (inr df_xy) (inr (default_params "y")))
              (csv_file "data.csv" 1000) eq_refl)
    as (name & df & info & Hn & Hr & _ & _ & _ & _ & Hs & _).
  exists name, df, info. repeat split; assumption.
Defined.

Lemma readable_file_passes_extension_check_witness :
  exists name,
    filename (csv_file "data.csv" 1000) = Some name /\
    str_in (file_extension name) allowed_extensions = true.
Proof.
  destruct (readable_file_passes_extension_check
              (E := demo (inr df_xy) (inr (default_params "y")))
              (csv_file "data.csv" 1000) df_xy eq_refl)
    as (name & Hn & Hx & _).
  exists name. split; assumption.
Defined.

Lemma dotless_name_is_refused_witness :
  file_extension "XLS" = lower "XLS".
Proof.
  refine (proj1 (dotless_name_is_refused
                   (E := demo (inr df_xy) (inr (default_params "y")))
                   (csv_file "XLS" 1000) "XLS" eq_refl _)).
  simpl. intros [H|[H|[H|[]]]]; discriminate H.
Defined.

Lemma train_without_numeric_features_witness :
  train_svr_model
    (E := demo (inr [("y", IntCol [1; 2; 3]%Z)]) (inr (default_params "y")))
    0 (csv_file "data.csv" 1000) "target_column=y" =
  failure "No numeric features found"
          "At least one numeric feature column is required".
Proof.
  refine (train_without_numeric_features
            (E := demo (inr [("y", IntCol [1; 2; 3]%Z)])
                       (inr (default_params "y")))
            0 (csv_file "data.csv" 1000) "target_column=y"
            (default_params "y") [("y", IntCol [1; 2; 3]%Z)]
            eq_refl eq_refl _ (or_introl eq_refl) (or_introl _)).
  - simpl. auto.
  - intros n c [H|[]] Hn. injection H as <- <-. contradiction.
Defined.
